(** * Shenandoah scope guards: phase, session and worker bookkeeping

    A shallow embedding of
    [src/hotspot/share/gc/shenandoah/shenandoahUtils.cpp]: the constructors and
    destructors of [ShenandoahGCSession], [ShenandoahGCPauseMark],
    [ShenandoahGCPhase], [ShenandoahGCWorkerPhase] and the
    [ShenandoahWorkerSession] family, together with the two static queries of
    [ShenandoahGCPhase].

    The guards are stateful: they read and write one static slot
    ([ShenandoahGCPhase::_current_phase]), one thread-local slot per thread
    (the Shenandoah worker id), the heap's recorded GC cause, and they call
    into the timer, the tracer, the heuristics, the phase-timings registry and
    the JFR event sink.  The embedding threads an explicit [State] through a
    small state-and-abort monad; calls to the collaborators are appended to a
    log, oldest first. *)

From Stdlib Require Import ZArith Lia.
From stdpp Require Import base gmap strings list.

Local Open Scope Z_scope.

(** ** Declarations that live in headers

    [ShenandoahPhaseTimings::Phase] (shenandoahPhaseTimings.hpp),
    [ShenandoahThreadLocalData::INVALID_WORKER_ID]
    (shenandoahThreadLocalData.hpp) and [GCCause::_no_gc] (gcCause.hpp) are
    declared outside the translated file.  Enumerators are C++ integers; the
    embedding keeps them as [Z] and takes the values as parameters.  Worker ids
    are [uint]; no arithmetic is done on them, only (in)equality tests, so they
    are kept as [Z] as well. *)

Class Decls : Type := {
  _num_phases : Z;
  _invalid_phase : Z;
  scan_roots : Z;
  update_roots : Z;
  init_evac : Z;
  final_update_refs_roots : Z;
  degen_gc_update_roots : Z;
  full_gc_roots : Z;
  phase_name : Z -> string;          (* ShenandoahPhaseTimings::phase_name *)
  INVALID_WORKER_ID : Z;
  _no_gc : Z;
}.

(** [Thread::current()] is an explicit argument of every operation that asks
    for it.  The three role queries are independent virtual predicates of the
    thread object. *)
Record Thread : Type := {
  tid : nat;
  is_Worker_thread : bool;
  is_VM_thread : bool;
  is_ConcurrentGC_thread : bool;
}.

(** ** Build and platform

    [ASSERT] is the preprocessor symbol tested in
    [~ShenandoahWorkerSession]; it marks the build that carries the debug
    checks, the [assert] calls of the file among them.  [os::elapsedTime()] returns a C++ [double];
    the embedding fixes no floating-point semantics and keeps the type and its
    two operations abstract.  The clock is an oracle: [elapsedTime_at k] is
    what the [k]-th read of the clock returns, with no assumption on how the
    readings relate.  [GCId_current thr] is what [GCId::current()] returns on
    thread [thr]. *)
Class Platform : Type := {
  ASSERT : bool;
  double : Type;
  dzero : double;
  dadd : double -> double -> double;
  dsub : double -> double -> double;
  elapsedTime_at : nat -> double;
  GCId_current : Thread -> Z;
}.

Inductive GCWhen : Type := BeforeGC | AfterGC.

Inductive MemoryManager : Type := cycle_memory_manager | stw_memory_manager.

Record ShenandoahWorkerSession : Type := { _worker_id : Z }.

(** ** Well-nested use of the guards

    The guards are stack objects: a scope constructs one, runs its body and
    destroys it on the way out, so the uses of one thread form a well-nested
    word.  [Scope g body next] is the C++ block
    [{ G guard(args); body } next].  The three guards listed are the ones the
    orchestrating thread opens around and inside phases. *)
Inductive Guard : Type :=
  | GCPhase (phase : Z)
  | GCWorkerPhase (phase : Z)
  | GCPauseMark (gc_id : Z) (type : Z).

Inductive Block : Type :=
  | Done
  | Scope (g : Guard) (body : Block) (next : Block).

(** Identifiers of the [ShenandoahGCPhase] scopes of a block, and the number
    of clock reads they make (one per constructor, one per destructor). *)
Fixpoint phases_of (b : Block) : list Z :=
  match b with
  | Done => []
  | Scope (GCPhase p) body next => p :: phases_of body ++ phases_of next
  | Scope _ body next => phases_of body ++ phases_of next
  end.

Fixpoint clock_reads_of (b : Block) : nat :=
  match b with
  | Done => 0
  | Scope (GCPhase _) body next => S (clock_reads_of body + S (clock_reads_of next))
  | Scope _ body next => clock_reads_of body + clock_reads_of next
  end.

(** Identifiers of the [ShenandoahGCPhase] scopes of a block in the order in
    which their destructors run: a scope closes after everything inside it. *)
Fixpoint closing_order (b : Block) : list Z :=
  match b with
  | Done => []
  | Scope (GCPhase p) body next => closing_order body ++ p :: closing_order next
  | Scope _ body next => closing_order body ++ closing_order next
  end.

(** [n] scopes of one identifier, one after the other. *)
Definition sequential (phase : Z) (bodies : list Block) : Block :=
  foldr (fun body next => Scope (GCPhase phase) body next) Done bodies.

Section Definitions.

Context {E : Decls} {P : Platform}.

(** The six enumerators named by [is_root_work_phase]. *)
Definition root_work_phases : list Z :=
  [ scan_roots; update_roots; init_evac;
    final_update_refs_roots; degen_gc_update_roots; full_gc_roots ].

(** A member of the enumeration proper: one of the enumerators declared
    before [_num_phases], numbered from zero. *)
Definition is_phase (p : Z) : bool := (0 <=? p) && (p <? _num_phases).

(** Modelled from the spec: the shape of the enumeration, whose declaration is
    not in the translated file.  "Identifiers are totally ordered for the sole
    purpose of distinguishing valid from sentinel": every named enumerator is a
    member, and the sentinel does not compare below [_num_phases]. *)
Definition enum_ok : bool :=
  forallb is_phase root_work_phases && (_num_phases <=? _invalid_phase).

(** The object a [ShenandoahGCPhase] leaves on the C++ stack.  Only the data
    members that the file reads back are kept; pointers to collaborators are
    not data of the model. *)
Record ShenandoahGCPhase : Type := {
  _phase : Z;
  _parent_phase : Z;
  _start : double;
}.

(** Calls that leave the file.  Arguments that the file computes from its own
    state are carried; arguments handed over from one collaborator to another
    are named in the comments. *)
Inductive Call : Type :=
  | heap_set_gc_cause (cause : Z)
  | timer_register_gc_start
  | tracer_report_gc_start (cause : Z)            (* , _timer->gc_start() *)
  | heap_trace_heap (when : GCWhen)               (* , _tracer *)
  | policy_record_cycle_start
  | heuristics_record_cycle_start
  | TraceMemoryManagerStats_initialize
      (mgr : MemoryManager) (cause : Z) (flags : list bool)
  | heuristics_record_cycle_end
  | timer_register_gc_end
  | tracer_report_gc_end        (* (_timer->gc_end(), _timer->time_partitions()) *)
  | GCIdMark_ctor (gc_id : Z)
  | SvcGCMarker_ctor (type : Z)
  | IsGCActiveMark_ctor
  | timer_register_gc_pause_start (name : string) (* , Ticks::now() *)
  | heuristics_record_gc_start
  | timer_register_gc_pause_end                   (* (Ticks::now()) *)
  | heuristics_record_gc_end
  | timings_record_phase_time (phase : Z) (elapsed : double)
  | timings_record_workers_start (phase : Z)
  | timings_record_workers_end (phase : Z)
  | concurrent_event_commit (gc_id : Z) (name : string)
  | parallel_event_commit (gc_id : Z) (worker_id : Z) (name : string).

(** ** The state the file reads and writes *)

Record State : Type := {
  _current_phase : Z;                  (* ShenandoahGCPhase::_current_phase *)
  tld_worker_id : gmap nat Z;          (* per thread: ShenandoahThreadLocalData *)
  gc_cause : Z;                        (* ShenandoahHeap: the recorded cause *)
  phase_timings : gmap Z double;       (* ShenandoahPhaseTimings: totals *)
  clock_reads : nat;                   (* how often os::elapsedTime() was read *)
  calls : list Call;                   (* collaborator calls, oldest first *)
}.

(** What a run of a constructor or destructor ends in: it returns, or an
    assertion stops the process. *)
Inductive Outcome (A : Type) : Type :=
  | Ok (a : A) (st : State)
  | Fatal (msg : string) (st : State).
Arguments Ok {A} _ _.
Arguments Fatal {A} _ _.

Definition outcome_state {A : Type} (o : Outcome A) : State :=
  match o with
  | Ok _ st => st
  | Fatal _ st => st
  end.

Definition M (A : Type) : Type := State -> Outcome A.

#[global] Instance M_ret : MRet M := fun A a st => Ok a st.

#[global] Instance M_bind : MBind M := fun A B f m st =>
  match m st with
  | Ok a st' => f a st'
  | Fatal msg st' => Fatal msg st'
  end.

(** Modelled from the spec: the [assert] macro of utilities/debug.hpp, which
    is not in the translated file.  Where the check is compiled in, the spec
    calls it enforced and fatal ("immediate process termination with a
    diagnostic"): a false condition stops the run with the message.  The check
    is debug code, like the block that the file itself puts under
    [#ifdef ASSERT]: in a build without [ASSERT] the macro expands to nothing
    and the run goes on. *)
Definition assert (cond : bool) (msg : string) : M unit :=
  fun st =>
    if ASSERT then (if cond then Ok tt st else Fatal msg st) else Ok tt st.

(** *** State accessors *)

Definition with_current_phase (p : Z) (st : State) : State :=
  {| _current_phase := p; tld_worker_id := tld_worker_id st;
     gc_cause := gc_cause st; phase_timings := phase_timings st;
     clock_reads := clock_reads st; calls := calls st |}.

Definition with_tld_worker_id (m : gmap nat Z) (st : State) : State :=
  {| _current_phase := _current_phase st; tld_worker_id := m;
     gc_cause := gc_cause st; phase_timings := phase_timings st;
     clock_reads := clock_reads st; calls := calls st |}.

Definition with_gc_cause (c : Z) (st : State) : State :=
  {| _current_phase := _current_phase st; tld_worker_id := tld_worker_id st;
     gc_cause := c; phase_timings := phase_timings st;
     clock_reads := clock_reads st; calls := calls st |}.

Definition with_phase_timings (t : gmap Z double) (st : State) : State :=
  {| _current_phase := _current_phase st; tld_worker_id := tld_worker_id st;
     gc_cause := gc_cause st; phase_timings := t;
     clock_reads := clock_reads st; calls := calls st |}.

Definition with_clock_reads (n : nat) (st : State) : State :=
  {| _current_phase := _current_phase st; tld_worker_id := tld_worker_id st;
     gc_cause := gc_cause st; phase_timings := phase_timings st;
     clock_reads := n; calls := calls st |}.

Definition with_calls (l : list Call) (st : State) : State :=
  {| _current_phase := _current_phase st; tld_worker_id := tld_worker_id st;
     gc_cause := gc_cause st; phase_timings := phase_timings st;
     clock_reads := clock_reads st; calls := l |}.

(** A call into a collaborator: appended to the log. *)
Definition call (c : Call) : M unit :=
  fun st => Ok tt (with_calls (calls st ++ [c]) st).

(** [os::elapsedTime()]: the next reading of the clock. *)
Definition os_elapsedTime : M double :=
  fun st => Ok (elapsedTime_at (clock_reads st)) (with_clock_reads (S (clock_reads st)) st).

(** [ShenandoahHeap::set_gc_cause] and [ShenandoahHeap::gc_cause]. *)
Definition heap_set_cause (cause : Z) : M unit :=
  fun st => Ok tt (with_calls (calls st ++ [heap_set_gc_cause cause]) (with_gc_cause cause st)).

Definition heap_gc_cause : M Z := fun st => Ok (gc_cause st) st.

(** [ShenandoahThreadLocalData::worker_id(thr)] and [set_worker_id(thr, id)].
    Modelled from the spec: a thread whose slot was never written holds the
    sentinel ("holding either unassigned (sentinel) or a non-negative worker
    index"); the initialisation itself is in shenandoahThreadLocalData.hpp. *)
Definition worker_id_of (thr : Thread) (st : State) : Z :=
  default INVALID_WORKER_ID (tld_worker_id st !! tid thr).

Definition worker_id (thr : Thread) : M Z := fun st => Ok (worker_id_of thr st) st.

Definition set_worker_id (thr : Thread) (id : Z) : M unit :=
  fun st => Ok tt (with_tld_worker_id (<[tid thr := id]> (tld_worker_id st)) st).

(** Modelled from the spec: [ShenandoahPhaseTimings::record_phase_time], whose
    body is in shenandoahPhaseTimings.cpp.  "add_duration(phase_id, elapsed)":
    the elapsed time is added to the accumulated total of that identifier; an
    identifier never recorded has total [dzero]. *)
Definition total_of (t : gmap Z double) (phase : Z) : double :=
  default dzero (t !! phase).

Definition add_duration (phase : Z) (elapsed : double) (t : gmap Z double) : gmap Z double :=
  <[phase := dadd (total_of t phase) elapsed]> t.

Definition record_phase_time (phase : Z) (elapsed : double) : M unit :=
  fun st => Ok tt (with_calls (calls st ++ [timings_record_phase_time phase elapsed])
                     (with_phase_timings (add_duration phase elapsed (phase_timings st)) st)).

(** ** ShenandoahGCPhase: the static slot and its queries *)

(** [ShenandoahGCPhase::current_phase()], the inline getter of the slot. *)
Definition current_phase : M Z := fun st => Ok (_current_phase st) st.

Definition set_current_phase (p : Z) : M unit :=
  fun st => Ok tt (with_current_phase p st).

Definition is_current_phase_valid : M bool :=
  fun st => Ok (_current_phase st <? _num_phases) st.

Definition is_root_work_phase : M bool :=
  p ← current_phase;
  if (p =? scan_roots) || (p =? update_roots) || (p =? init_evac)
     || (p =? final_update_refs_roots) || (p =? degen_gc_update_roots)
     || (p =? full_gc_roots)
  then mret true
  else mret false.

(** ** ShenandoahGCSession *)

Definition all_stats : list bool := [true; true; true; true; true; true; true; true].
Definition pause_stats : list bool := [true; true; false; false; false; true; true; true].

Definition ShenandoahGCSession_ctor (cause : Z) : M unit :=
  valid ← is_current_phase_valid;
  assert (negb valid) "No current GC phase";;
  heap_set_cause cause;;
  call timer_register_gc_start;;
  call (tracer_report_gc_start cause);;
  call (heap_trace_heap BeforeGC);;
  call policy_record_cycle_start;;
  call heuristics_record_cycle_start;;
  call (TraceMemoryManagerStats_initialize cycle_memory_manager cause all_stats).

Definition ShenandoahGCSession_dtor : M unit :=
  call heuristics_record_cycle_end;;
  call timer_register_gc_end;;
  call (heap_trace_heap AfterGC);;
  call tracer_report_gc_end;;
  valid ← is_current_phase_valid;
  assert (negb valid) "No current GC phase";;
  heap_set_cause _no_gc.

(** The state the constructor leaves once its check is behind it. *)
Definition session_opened (cause : Z) (st : State) : State :=
  with_calls
    (calls st ++ [ heap_set_gc_cause cause; timer_register_gc_start;
                   tracer_report_gc_start cause; heap_trace_heap BeforeGC;
                   policy_record_cycle_start; heuristics_record_cycle_start;
                   TraceMemoryManagerStats_initialize cycle_memory_manager cause
                     all_stats ])
    (with_gc_cause cause st).

(** The four reports the destructor makes before its assertion. *)
Definition session_end_calls : list Call :=
  [ heuristics_record_cycle_end; timer_register_gc_end;
    heap_trace_heap AfterGC; tracer_report_gc_end ].

(** ** ShenandoahGCPauseMark *)

Definition ShenandoahGCPauseMark_ctor (gc_id : Z) (type : Z) : M unit :=
  call (GCIdMark_ctor gc_id);;
  call (SvcGCMarker_ctor type);;
  call IsGCActiveMark_ctor;;
  call (timer_register_gc_pause_start "Shenandoah");;
  cause ← heap_gc_cause;
  call (TraceMemoryManagerStats_initialize stw_memory_manager cause pause_stats);;
  call heuristics_record_gc_start.

Definition ShenandoahGCPauseMark_dtor : M unit :=
  call timer_register_gc_pause_end;;
  call heuristics_record_gc_end.

(** ** ShenandoahGCPhase *)

Definition orchestrating (thr : Thread) : bool :=
  negb (is_Worker_thread thr) && (is_VM_thread thr || is_ConcurrentGC_thread thr).

Definition ShenandoahGCPhase_ctor (thr : Thread) (phase : Z) : M ShenandoahGCPhase :=
  assert (negb (is_Worker_thread thr) &&
            (is_VM_thread thr || is_ConcurrentGC_thread thr))
         "Must be set by these threads";;
  parent ← current_phase;
  set_current_phase phase;;
  start ← os_elapsedTime;
  mret {| _phase := phase; _parent_phase := parent; _start := start |}.

Definition ShenandoahGCPhase_dtor (this : ShenandoahGCPhase) : M unit :=
  now ← os_elapsedTime;
  record_phase_time (_phase this) (dsub now (_start this));;
  set_current_phase (_parent_phase this).

(** ** ShenandoahGCWorkerPhase: its only data member is [_phase] *)

Definition ShenandoahGCWorkerPhase_ctor (phase : Z) : M Z :=
  call (timings_record_workers_start phase);;
  mret phase.

Definition ShenandoahGCWorkerPhase_dtor (this_phase : Z) : M unit :=
  call (timings_record_workers_end this_phase).

(** ** ShenandoahWorkerSession and its two specialisations *)

Definition ShenandoahWorkerSession_ctor (thr : Thread) (worker : Z) : M ShenandoahWorkerSession :=
  cur ← worker_id thr;
  assert (cur =? INVALID_WORKER_ID) "Already set";;
  set_worker_id thr worker;;
  mret {| _worker_id := worker |}.

Definition ShenandoahWorkerSession_dtor (thr : Thread) (this : ShenandoahWorkerSession) : M unit :=
  if ASSERT then
    cur ← worker_id thr;
    assert (negb (cur =? INVALID_WORKER_ID)) "Must be set";;
    set_worker_id thr INVALID_WORKER_ID
  else mret tt.

Definition ShenandoahConcurrentWorkerSession_dtor (thr : Thread) (this : ShenandoahWorkerSession) : M unit :=
  p ← current_phase;
  call (concurrent_event_commit (GCId_current thr) (phase_name p)).

Definition ShenandoahParallelWorkerSession_dtor (thr : Thread) (this : ShenandoahWorkerSession) : M unit :=
  p ← current_phase;
  call (parallel_event_commit (GCId_current thr) (_worker_id this) (phase_name p)).

(** Destroying an object of a derived class runs the derived destructor's
    body, then the base class's. *)
Definition destroy_ConcurrentWorkerSession (thr : Thread) (this : ShenandoahWorkerSession) : M unit :=
  ShenandoahConcurrentWorkerSession_dtor thr this;;
  ShenandoahWorkerSession_dtor thr this.

Definition destroy_ParallelWorkerSession (thr : Thread) (this : ShenandoahWorkerSession) : M unit :=
  ShenandoahParallelWorkerSession_dtor thr this;;
  ShenandoahWorkerSession_dtor thr this.

(** ** Running a block on a thread *)

Fixpoint run_block (thr : Thread) (b : Block) : M unit :=
  match b with
  | Done => mret tt
  | Scope (GCPhase phase) body next =>
      this ← ShenandoahGCPhase_ctor thr phase;
      run_block thr body;;
      ShenandoahGCPhase_dtor this;;
      run_block thr next
  | Scope (GCWorkerPhase phase) body next =>
      this ← ShenandoahGCWorkerPhase_ctor phase;
      run_block thr body;;
      ShenandoahGCWorkerPhase_dtor this;;
      run_block thr next
  | Scope (GCPauseMark gc_id type) body next =>
      ShenandoahGCPauseMark_ctor gc_id type;;
      run_block thr body;;
      ShenandoahGCPauseMark_dtor;;
      run_block thr next
  end.

(** The wall-times the scopes of [sequential phase bodies] measure when the
    first of them is constructed at clock read [k]: destructor reading minus
    constructor reading, the body's own reads lying in between. *)
Fixpoint measured (bodies : list Block) (k : nat) : list double :=
  match bodies with
  | [] => []
  | body :: rest =>
      dsub (elapsedTime_at (S (k + clock_reads_of body))) (elapsedTime_at k)
      :: measured rest (S (S (k + clock_reads_of body)))
  end.

(** The identifiers of the [record_phase_time] calls of a log, in order. *)
Fixpoint recorded_phases (log : list Call) : list Z :=
  match log with
  | [] => []
  | timings_record_phase_time phase _ :: rest => phase :: recorded_phases rest
  | _ :: rest => recorded_phases rest
  end.

(** The state at start-up.  The slot's initialiser is line 39 of the file;
    the other fields start empty. *)
Definition initial_state : State :=
  {| _current_phase := _invalid_phase; tld_worker_id := ∅; gc_cause := _no_gc;
     phase_timings := ∅; clock_reads := 0; calls := [] |}.

End Definitions.

Arguments Ok {P A} _ _.
Arguments Fatal {P A} _ _.

(** ** Two concrete builds, for evaluating the model

    An enumeration of eight phases with the sentinel right behind it, time in
    whole milliseconds, a clock that advances ten per read. *)
Definition test_decls : Decls :=
  {| _num_phases := 8; _invalid_phase := 8;
     scan_roots := 1; update_roots := 2; init_evac := 3;
     final_update_refs_roots := 4; degen_gc_update_roots := 5; full_gc_roots := 6;
     phase_name := fun p => if p =? 1 then "scan_roots" else "other";
     INVALID_WORKER_ID := 4294967295; _no_gc := 0 |}.

Definition debug_build : Platform :=
  {| ASSERT := true; double := Z; dzero := 0; dadd := Z.add; dsub := Z.sub;
     elapsedTime_at := fun k => 10 * Z.of_nat k; GCId_current := fun _ => 7 |}.

Definition product_build : Platform :=
  {| ASSERT := false; double := Z; dzero := 0; dadd := Z.add; dsub := Z.sub;
     elapsedTime_at := fun k => 10 * Z.of_nat k; GCId_current := fun _ => 7 |}.

Definition vm_thread : Thread :=
  {| tid := 0; is_Worker_thread := false; is_VM_thread := true;
     is_ConcurrentGC_thread := false |}.

Definition worker_thread : Thread :=
  {| tid := 3; is_Worker_thread := true; is_VM_thread := false;
     is_ConcurrentGC_thread := true |}.

Definition gc_thread : Thread :=
  {| tid := 1; is_Worker_thread := false; is_VM_thread := false;
     is_ConcurrentGC_thread := true |}.

Definition java_thread : Thread :=
  {| tid := 9; is_Worker_thread := false; is_VM_thread := false;
     is_ConcurrentGC_thread := false |}.

(** The start-up state of either build. *)
Definition debug_start : @State debug_build := @initial_state test_decls debug_build.
Definition product_start : @State product_build :=
  @initial_state test_decls product_build.

(** Phase 2 with a worker phase inside, then a pause. *)
Definition nested_body : Block :=
  Scope (GCPhase 2) (Scope (GCWorkerPhase 2) Done Done)
    (Scope (GCPauseMark 7 0) Done Done).

(** A worker phase and a pause, no phase. *)
Definition phase_free_block : Block :=
  Scope (GCWorkerPhase 2) Done (Scope (GCPauseMark 7 0) Done Done).

(** One cycle on the VM thread with cause 5: phase 1, inside it worker 2 of the
    gang on thread 3. *)
Definition one_cycle {E : Decls} {P : Platform} : M unit :=
  ShenandoahGCSession_ctor 5;;
  phase ← ShenandoahGCPhase_ctor vm_thread 1;
  session ← ShenandoahWorkerSession_ctor worker_thread 2;
  destroy_ParallelWorkerSession worker_thread session;;
  ShenandoahGCPhase_dtor phase;;
  ShenandoahGCSession_dtor.

(** * Properties *)

Section Properties.

Context {E : Decls} {P : Platform}.

(** ** Sequencing *)

Lemma bind_Ok {A B : Type} (m : M A) (f : A -> M B) (st st' : State) (a : A) :
  m st = Ok a st' -> (m ≫= f) st = f a st'.
Proof. intros H. unfold mbind, M_bind. now rewrite H. Qed.

Lemma bind_Fatal {A B : Type} (m : M A) (f : A -> M B) (st st' : State) (msg : string) :
  m st = Fatal msg st' -> (m ≫= f) st = Fatal msg st'.
Proof. intros H. unfold mbind, M_bind. now rewrite H. Qed.

(** Unfolds the straight-line operations of the file down to state
    transformers. *)
Ltac run :=
  cbv [ ShenandoahGCSession_ctor ShenandoahGCSession_dtor
        ShenandoahGCPauseMark_ctor ShenandoahGCPauseMark_dtor
        ShenandoahGCPhase_ctor ShenandoahGCPhase_dtor
        ShenandoahGCWorkerPhase_ctor ShenandoahGCWorkerPhase_dtor
        ShenandoahWorkerSession_ctor ShenandoahWorkerSession_dtor
        ShenandoahConcurrentWorkerSession_dtor ShenandoahParallelWorkerSession_dtor
        destroy_ConcurrentWorkerSession destroy_ParallelWorkerSession
        is_current_phase_valid is_root_work_phase current_phase set_current_phase
        heap_set_cause heap_gc_cause worker_id set_worker_id record_phase_time
        os_elapsedTime call assert mbind mret M_bind M_ret ].

(** Reads a field back through the state updates. *)
Ltac fields :=
  cbn [ _current_phase tld_worker_id gc_cause phase_timings clock_reads calls
        with_current_phase with_tld_worker_id with_gc_cause with_phase_timings
        with_clock_reads with_calls _phase _parent_phase _start _worker_id
        outcome_state ] in *.

(** ** The queries *)

Lemma is_current_phase_valid_eq (st : State) :
  is_current_phase_valid st = Ok (_current_phase st <? _num_phases) st.
Proof. reflexivity. Qed.

Lemma root_work_test (p : Z) :
  (p =? scan_roots) || (p =? update_roots) || (p =? init_evac)
  || (p =? final_update_refs_roots) || (p =? degen_gc_update_roots)
  || (p =? full_gc_roots) = true
  <-> p ∈ root_work_phases.
Proof.
  unfold root_work_phases. rewrite !orb_true_iff, !Z.eqb_eq.
  rewrite !elem_of_cons, elem_of_nil. tauto.
Qed.

Lemma enum_ok_sentinel : enum_ok = true -> _num_phases <= _invalid_phase.
Proof. unfold enum_ok. rewrite andb_true_iff. intros [_ H]. lia. Qed.

Lemma enum_ok_root_work (p : Z) :
  enum_ok = true -> p ∈ root_work_phases -> is_phase p = true.
Proof.
  unfold enum_ok. rewrite andb_true_iff, forallb_forall. intros [H _] Hp.
  apply H. now apply list_elem_of_In.
Qed.

Lemma is_phase_lt (p : Z) : is_phase p = true -> p < _num_phases.
Proof. unfold is_phase. rewrite andb_true_iff. lia. Qed.

(** C8.  [is_root_work_phase] answers true exactly when the slot holds one of
    the six listed enumerators, false for every other value of the slot, the
    sentinel included, and returns the state it was given. *)
Theorem is_root_work_phase_pure (st : State) :
  exists b : bool,
    is_root_work_phase st = Ok b st /\
    (b = true <-> _current_phase st ∈ root_work_phases) /\
    (enum_ok = true -> _current_phase st = _invalid_phase -> b = false).
Proof.
  run.
  match goal with |- context [if ?c then _ else _] => destruct c eqn:Hb end.
  - exists true. split; [reflexivity|]. split.
    + split; [|reflexivity]. intros _. now apply root_work_test.
    + intros Hok Hs. apply root_work_test in Hb.
      apply (enum_ok_root_work _ Hok), is_phase_lt in Hb.
      apply enum_ok_sentinel in Hok. lia.
  - exists false. split; [reflexivity|]. split; [|reflexivity].
    split; [discriminate|]. intros Hin. apply root_work_test in Hin. congruence.
Qed.

(** C9.  The slot starts at the sentinel.  [is_current_phase_valid] leaves the
    state alone and answers false when the slot holds the sentinel (so at
    start-up), true when it holds a member of the enumeration; over the values
    the slot can hold, the answer is "the slot differs from the sentinel". *)
Theorem is_current_phase_valid_iff_not_sentinel (st : State) :
  enum_ok = true ->
  _current_phase initial_state = _invalid_phase /\
  is_current_phase_valid initial_state = Ok false initial_state /\
  (_current_phase st = _invalid_phase -> is_current_phase_valid st = Ok false st) /\
  (is_phase (_current_phase st) = true -> is_current_phase_valid st = Ok true st) /\
  (is_phase (_current_phase st) = true \/ _current_phase st = _invalid_phase ->
   exists b : bool,
     is_current_phase_valid st = Ok b st /\
     (b = true <-> _current_phase st <> _invalid_phase)).
Proof.
  intros Hok. pose proof (enum_ok_sentinel Hok) as Hs.
  assert (Hinv : forall s : State,
             _current_phase s = _invalid_phase -> is_current_phase_valid s = Ok false s).
  { intros s Hc. rewrite is_current_phase_valid_eq.
    replace (_current_phase s <? _num_phases) with false; [reflexivity|].
    symmetry. apply Z.ltb_ge. lia. }
  assert (Hmem : forall s : State,
             is_phase (_current_phase s) = true -> is_current_phase_valid s = Ok true s).
  { intros s Hc. apply is_phase_lt in Hc. rewrite is_current_phase_valid_eq.
    replace (_current_phase s <? _num_phases) with true; [reflexivity|].
    symmetry. now apply Z.ltb_lt. }
  split; [reflexivity|]. split; [now apply Hinv|].
  split; [apply Hinv|]. split; [apply Hmem|].
  intros [Hc|Hc].
  - exists true. split; [now apply Hmem|]. split; [|reflexivity].
    intros _. apply is_phase_lt in Hc. lia.
  - exists false. split; [now apply Hinv|]. split; [discriminate|]. congruence.
Qed.

(** ** ShenandoahGCSession *)

Lemma GCSession_ctor_active (cause : Z) (st : State) :
  ASSERT = true ->
  _current_phase st < _num_phases ->
  ShenandoahGCSession_ctor cause st = Fatal "No current GC phase" st.
Proof.
  intros HA H. run. rewrite HA.
  replace (_current_phase st <? _num_phases) with true; [reflexivity|].
  symmetry. now apply Z.ltb_lt.
Qed.

Lemma GCSession_ctor_unchecked (cause : Z) (st : State) :
  ASSERT = false ->
  ShenandoahGCSession_ctor cause st = Ok tt (session_opened cause st).
Proof.
  intros HA. run. rewrite HA. unfold session_opened. fields.
  rewrite <- !app_assoc. reflexivity.
Qed.

Lemma GCSession_ctor_idle (cause : Z) (st : State) :
  _num_phases <= _current_phase st ->
  exists st',
    ShenandoahGCSession_ctor cause st = Ok tt st' /\
    gc_cause st' = cause /\
    _current_phase st' = _current_phase st.
Proof.
  intros H. run. replace (_current_phase st <? _num_phases) with false.
  - destruct ASSERT; (eexists; split; [reflexivity|]; split; reflexivity).
  - symmetry. apply Z.ltb_ge. lia.
Qed.

Lemma GCSession_dtor_active (st : State) :
  ASSERT = true ->
  _current_phase st < _num_phases ->
  ShenandoahGCSession_dtor st
  = Fatal "No current GC phase" (with_calls (calls st ++ session_end_calls) st).
Proof.
  intros HA H. run. rewrite HA. cbn [_current_phase with_calls calls].
  replace (_current_phase st <? _num_phases) with true
    by (symmetry; now apply Z.ltb_lt).
  unfold with_calls, session_end_calls. cbn. now rewrite <- !app_assoc.
Qed.

Lemma GCSession_dtor_idle (st : State) :
  _num_phases <= _current_phase st ->
  ShenandoahGCSession_dtor st
  = Ok tt (with_calls (calls st ++ session_end_calls ++ [heap_set_gc_cause _no_gc])
             (with_gc_cause _no_gc st)).
Proof.
  intros H. run. cbn [_current_phase with_calls calls].
  replace (_current_phase st <? _num_phases) with false
    by (symmetry; apply Z.ltb_ge; lia).
  unfold with_calls, with_gc_cause, session_end_calls.
  destruct ASSERT; cbn; now rewrite <- !app_assoc.
Qed.

Lemma GCSession_dtor_unchecked (st : State) :
  ASSERT = false ->
  ShenandoahGCSession_dtor st
  = Ok tt (with_calls (calls st ++ session_end_calls ++ [heap_set_gc_cause _no_gc])
             (with_gc_cause _no_gc st)).
Proof.
  intros HA. run. rewrite HA. cbn [_current_phase with_calls calls].
  unfold with_calls, with_gc_cause, session_end_calls. cbn. now rewrite <- !app_assoc.
Qed.

(** C2, as the code has it.  Built with [ASSERT]: with a member of the
    enumeration in the slot, the constructor of [ShenandoahGCSession] stops at
    its assertion before doing anything, and the destructor stops at its
    assertion after its four reports and before the cause is reset.  In either
    build both return when the slot holds the sentinel.  Built without
    [ASSERT] there is no check: whatever the slot holds, the constructor
    returns with the cause recorded and its reports made, and the destructor
    returns with the cause reset. *)
Theorem GCSession_checks_no_phase (cause : Z) (st : State) :
  (ASSERT = true -> is_phase (_current_phase st) = true ->
   ShenandoahGCSession_ctor cause st = Fatal "No current GC phase" st /\
   ShenandoahGCSession_dtor st
   = Fatal "No current GC phase" (with_calls (calls st ++ session_end_calls) st)) /\
  (enum_ok = true -> _current_phase st = _invalid_phase ->
   (exists st', ShenandoahGCSession_ctor cause st = Ok tt st') /\
   (exists st', ShenandoahGCSession_dtor st = Ok tt st')) /\
  (ASSERT = false ->
   ShenandoahGCSession_ctor cause st = Ok tt (session_opened cause st) /\
   gc_cause (session_opened cause st) = cause /\
   exists st', ShenandoahGCSession_dtor st = Ok tt st' /\ gc_cause st' = _no_gc).
Proof.
  split; [|split].
  - intros HA H. apply is_phase_lt in H. split.
    + now apply GCSession_ctor_active.
    + now apply GCSession_dtor_active.
  - intros Hok Hc. apply enum_ok_sentinel in Hok. split.
    + destruct (GCSession_ctor_idle cause st) as (st' & H & _); [lia|]. now exists st'.
    + eexists. apply GCSession_dtor_idle. lia.
  - intros HA. split; [now apply GCSession_ctor_unchecked|]. split; [reflexivity|].
    eexists. split; [now apply GCSession_dtor_unchecked|]. reflexivity.
Qed.

(** C7.  With no phase active, the destructor of [ShenandoahGCSession] tells
    the heuristics the cycle ended, registers the end with the timer, traces
    the heap, reports the end to the tracer and last resets the heap's cause
    to [_no_gc]; a cause other than [_no_gc] that the constructor had recorded
    is gone afterwards. *)
Theorem GCSession_dtor_order (cause : Z) (st0 st : State) :
  enum_ok = true ->
  _current_phase st0 = _invalid_phase ->
  _current_phase st = _invalid_phase ->
  exists st1 st',
    ShenandoahGCSession_ctor cause st0 = Ok tt st1 /\
    gc_cause st1 = cause /\
    ShenandoahGCSession_dtor st = Ok tt st' /\
    calls st' = calls st ++ [ heuristics_record_cycle_end; timer_register_gc_end;
                              heap_trace_heap AfterGC; tracer_report_gc_end;
                              heap_set_gc_cause _no_gc ] /\
    gc_cause st' = _no_gc /\
    (cause <> _no_gc -> gc_cause st' <> cause) /\
    _current_phase st' = _current_phase st /\
    tld_worker_id st' = tld_worker_id st /\
    phase_timings st' = phase_timings st.
Proof.
  intros Hok H0 H. apply enum_ok_sentinel in Hok.
  destruct (GCSession_ctor_idle cause st0) as (st1 & Hc & Hcause & _); [lia|].
  exists st1. eexists. split; [exact Hc|]. split; [exact Hcause|].
  split; [apply GCSession_dtor_idle; lia|].
  cbn. repeat split; congruence.
Qed.

(** ** ShenandoahGCPhase: who may open one *)

Lemma GCPhase_ctor_orchestrating (thr : Thread) (phase : Z) (st : State) :
  orchestrating thr = true ->
  ShenandoahGCPhase_ctor thr phase st
  = Ok {| _phase := phase; _parent_phase := _current_phase st;
          _start := elapsedTime_at (clock_reads st) |}
       (with_clock_reads (S (clock_reads st)) (with_current_phase phase st)).
Proof. unfold orchestrating. intros H. run. rewrite H. now destruct ASSERT. Qed.

Lemma GCPhase_ctor_rejected (thr : Thread) (phase : Z) (st : State) :
  ASSERT = true ->
  orchestrating thr = false ->
  ShenandoahGCPhase_ctor thr phase st = Fatal "Must be set by these threads" st.
Proof. unfold orchestrating. intros HA H. run. now rewrite HA, H. Qed.

Lemma GCPhase_ctor_unchecked (thr : Thread) (phase : Z) (st : State) :
  ASSERT = false ->
  ShenandoahGCPhase_ctor thr phase st
  = Ok {| _phase := phase; _parent_phase := _current_phase st;
          _start := elapsedTime_at (clock_reads st) |}
       (with_clock_reads (S (clock_reads st)) (with_current_phase phase st)).
Proof. intros HA. run. now rewrite HA. Qed.

(** C4, as the code has it.  Built with [ASSERT], the constructor of
    [ShenandoahGCPhase] stops at its assertion, with nothing changed, on a
    worker thread and on a thread that is neither the VM thread nor a
    concurrent-GC thread.  In either build it returns on a non-worker thread
    that is one of the two.  Built without [ASSERT] there is no check: the
    constructor returns on every thread, with the slot set to the phase. *)
Theorem GCPhase_ctor_thread_check (thr : Thread) (phase : Z) (st : State) :
  (ASSERT = true ->
   is_Worker_thread thr = true \/
   (is_VM_thread thr = false /\ is_ConcurrentGC_thread thr = false) ->
   ShenandoahGCPhase_ctor thr phase st = Fatal "Must be set by these threads" st) /\
  (is_Worker_thread thr = false ->
   is_VM_thread thr = true \/ is_ConcurrentGC_thread thr = true ->
   exists this st', ShenandoahGCPhase_ctor thr phase st = Ok this st') /\
  (ASSERT = false ->
   exists this st',
     ShenandoahGCPhase_ctor thr phase st = Ok this st' /\
     _parent_phase this = _current_phase st /\
     _current_phase st' = phase).
Proof.
  split; [|split].
  - intros HA H. apply GCPhase_ctor_rejected; [exact HA|]. unfold orchestrating.
    destruct H as [-> | [-> ->]]; [reflexivity|]. now destruct (is_Worker_thread thr).
  - intros Hw Hr. do 2 eexists. apply GCPhase_ctor_orchestrating.
    unfold orchestrating. rewrite Hw. now destruct Hr as [-> | ->]; [|rewrite orb_true_r].
  - intros HA. do 2 eexists. split; [now apply GCPhase_ctor_unchecked|].
    split; reflexivity.
Qed.

(** ** ShenandoahGCPhase: save on entry, restore on exit *)

Lemma GCPhase_dtor_eq (this : ShenandoahGCPhase) (st : State) :
  ShenandoahGCPhase_dtor this st
  = Ok tt
      (with_current_phase (_parent_phase this)
         (with_calls
            (calls st ++ [timings_record_phase_time (_phase this)
                            (dsub (elapsedTime_at (clock_reads st)) (_start this))])
            (with_phase_timings
               (add_duration (_phase this)
                  (dsub (elapsedTime_at (clock_reads st)) (_start this))
                  (phase_timings st))
               (with_clock_reads (S (clock_reads st)) st)))).
Proof. reflexivity. Qed.

Lemma add_duration_other (phase q : Z) (d : double) (t : gmap Z double) :
  q <> phase -> add_duration phase d t !! q = t !! q.
Proof. intros H. unfold add_duration. apply lookup_insert_ne. congruence. Qed.

Lemma add_duration_total (phase : Z) (d : double) (t : gmap Z double) :
  total_of (add_duration phase d t) phase = dadd (total_of t phase) d.
Proof. unfold add_duration, total_of at 1. now rewrite lookup_insert_eq. Qed.

(** What a well-nested block does when the orchestrating thread runs it: it
    returns, the slot is back at its value, the clock was read once per
    constructor and destructor of a phase, and only the totals of the
    identifiers it opened moved. *)
Lemma run_block_frame_of_ctor (thr : Thread) :
  (forall (phase : Z) (st : State),
     ShenandoahGCPhase_ctor thr phase st
     = Ok {| _phase := phase; _parent_phase := _current_phase st;
             _start := elapsedTime_at (clock_reads st) |}
          (with_clock_reads (S (clock_reads st)) (with_current_phase phase st))) ->
  forall (b : Block) (st : State),
  exists st',
    run_block thr b st = Ok tt st' /\
    _current_phase st' = _current_phase st /\
    clock_reads st' = (clock_reads st + clock_reads_of b)%nat /\
    (forall q, q ∉ phases_of b -> phase_timings st' !! q = phase_timings st !! q) /\
    tld_worker_id st' = tld_worker_id st /\
    gc_cause st' = gc_cause st.
Proof.
  intros Hctor. induction b as [|g body IHbody next IHnext]; intros st.
  - exists st. cbn. repeat split; lia.
  - destruct g as [phase|phase|gc_id type]; cbn [run_block].
    + erewrite bind_Ok by apply Hctor.
      destruct (IHbody (with_clock_reads (S (clock_reads st))
                          (with_current_phase phase st)))
        as (st2 & Hbody & Hcur2 & Hclk2 & Htim2 & Htld2 & Hcause2).
      erewrite bind_Ok by exact Hbody.
      erewrite bind_Ok by apply GCPhase_dtor_eq.
      match goal with |- context [run_block thr next ?s] =>
        destruct (IHnext s) as (st4 & Hnext & Hcur4 & Hclk4 & Htim4 & Htld4 & Hcause4)
      end.
      exists st4. split; [exact Hnext|]. fields. cbn [clock_reads_of phases_of].
      split; [congruence|]. split; [lia|]. split; [|split; congruence].
      intros q Hq. apply not_elem_of_cons in Hq as [Hne Hq].
      apply not_elem_of_app in Hq as [Hqb Hqn].
      rewrite (Htim4 q Hqn). rewrite add_duration_other by exact Hne. now apply Htim2.
    + erewrite bind_Ok by reflexivity.
      match goal with |- context [(run_block thr body ≫= _) ?s] =>
        destruct (IHbody s) as (st2 & Hbody & Hcur2 & Hclk2 & Htim2 & Htld2 & Hcause2)
      end.
      erewrite bind_Ok by exact Hbody.
      erewrite bind_Ok by reflexivity.
      match goal with |- context [run_block thr next ?s] =>
        destruct (IHnext s) as (st4 & Hnext & Hcur4 & Hclk4 & Htim4 & Htld4 & Hcause4)
      end.
      exists st4. split; [exact Hnext|]. fields. cbn [clock_reads_of phases_of].
      split; [congruence|]. split; [lia|]. split; [|split; congruence].
      intros q Hq. apply not_elem_of_app in Hq as [Hqb Hqn].
      rewrite (Htim4 q Hqn). now apply Htim2.
    + erewrite bind_Ok by reflexivity.
      match goal with |- context [(run_block thr body ≫= _) ?s] =>
        destruct (IHbody s) as (st2 & Hbody & Hcur2 & Hclk2 & Htim2 & Htld2 & Hcause2)
      end.
      erewrite bind_Ok by exact Hbody.
      erewrite bind_Ok by reflexivity.
      match goal with |- context [run_block thr next ?s] =>
        destruct (IHnext s) as (st4 & Hnext & Hcur4 & Hclk4 & Htim4 & Htld4 & Hcause4)
      end.
      exists st4. split; [exact Hnext|]. fields. cbn [clock_reads_of phases_of].
      split; [congruence|]. split; [lia|]. split; [|split; congruence].
      intros q Hq. apply not_elem_of_app in Hq as [Hqb Hqn].
      rewrite (Htim4 q Hqn). now apply Htim2.
Qed.

Lemma run_block_frame (thr : Thread) :
  orchestrating thr = true ->
  forall (b : Block) (st : State),
  exists st',
    run_block thr b st = Ok tt st' /\
    _current_phase st' = _current_phase st /\
    clock_reads st' = (clock_reads st + clock_reads_of b)%nat /\
    (forall q, q ∉ phases_of b -> phase_timings st' !! q = phase_timings st !! q) /\
    tld_worker_id st' = tld_worker_id st /\
    gc_cause st' = gc_cause st.
Proof.
  intros Hthr. apply run_block_frame_of_ctor.
  intros phase st. now apply GCPhase_ctor_orchestrating.
Qed.

(** C1.  Take any state, let the orchestrating thread construct a
    [ShenandoahGCPhase], run any well-nested block of guards inside it, to any
    depth, and destroy it: the constructor saves the slot as parent and sets
    it to the new phase, the slot reads that phase again when the body is
    through, and after the destructor it holds what it held before the
    constructor. *)
Theorem GCPhase_restores_slot (thr : Thread) (phase : Z) (body : Block) (st : State) :
  orchestrating thr = true ->
  exists this st1 st2 st3,
    ShenandoahGCPhase_ctor thr phase st = Ok this st1 /\
    _parent_phase this = _current_phase st /\
    _current_phase st1 = phase /\
    run_block thr body st1 = Ok tt st2 /\
    _current_phase st2 = phase /\
    ShenandoahGCPhase_dtor this st2 = Ok tt st3 /\
    _current_phase st3 = _current_phase st.
Proof.
  intros Hthr.
  destruct (run_block_frame thr Hthr body
              (with_clock_reads (S (clock_reads st)) (with_current_phase phase st)))
    as (st2 & Hbody & Hcur2 & _).
  do 4 eexists.
  split; [now apply GCPhase_ctor_orchestrating|].
  split; [reflexivity|]. split; [reflexivity|].
  split; [exact Hbody|]. split; [exact Hcur2|].
  split; [apply GCPhase_dtor_eq|]. reflexivity.
Qed.

(** ** ShenandoahGCPhase: what the registry receives *)

Lemma sequential_totals (thr : Thread) (phase : Z) :
  orchestrating thr = true ->
  forall (bodies : list Block) (st : State),
  Forall (fun body => phase ∉ phases_of body) bodies ->
  exists st',
    run_block thr (sequential phase bodies) st = Ok tt st' /\
    total_of (phase_timings st') phase
    = fold_left dadd (measured bodies (clock_reads st))
        (total_of (phase_timings st) phase) /\
    (forall q, q <> phase ->
               Forall (fun body => q ∉ phases_of body) bodies ->
               phase_timings st' !! q = phase_timings st !! q).
Proof.
  intros Hthr. induction bodies as [|body rest IH]; intros st Hfree.
  - exists st. cbn. auto.
  - apply Forall_cons in Hfree as [Hbody Hrest].
    cbn [sequential foldr run_block]. fold (sequential phase rest).
    erewrite bind_Ok by (now apply GCPhase_ctor_orchestrating).
    match goal with |- context [(run_block thr body ≫= _) ?s] =>
      destruct (run_block_frame thr Hthr body s)
        as (st2 & Hrun & Hcur2 & Hclk2 & Htim2 & _)
    end.
    erewrite bind_Ok by exact Hrun.
    erewrite bind_Ok by apply GCPhase_dtor_eq.
    match goal with |- context [run_block thr (sequential phase rest) ?s] =>
      destruct (IH s Hrest) as (st4 & Hnext & Htot4 & Hoth4)
    end.
    exists st4. split; [exact Hnext|]. fields. split.
    + rewrite Htot4, add_duration_total. cbn [measured fold_left].
      unfold total_of. rewrite (Htim2 phase Hbody), Hclk2. reflexivity.
    + intros q Hne Hq. apply Forall_cons in Hq as [Hqb Hqr].
      rewrite (Hoth4 q Hne Hqr). rewrite add_duration_other by exact Hne.
      now apply Htim2.
Qed.

(** C5.  Every destructor of a [ShenandoahGCPhase] reads the clock, adds that
    reading minus the one its constructor took to the total of its own
    identifier, and leaves the totals of all other identifiers as they were.
    Hence [n] scopes of one identifier run one after the other leave its total
    at the old total plus their measured wall-times, added in order, and do
    not move the total of any identifier that no scope inside them opens. *)
Theorem GCPhase_accumulates_elapsed :
  (forall (this : ShenandoahGCPhase) (st : State),
     exists st',
       ShenandoahGCPhase_dtor this st = Ok tt st' /\
       total_of (phase_timings st') (_phase this)
       = dadd (total_of (phase_timings st) (_phase this))
              (dsub (elapsedTime_at (clock_reads st)) (_start this)) /\
       (forall q, q <> _phase this -> phase_timings st' !! q = phase_timings st !! q)) /\
  (forall (thr : Thread) (phase : Z) (bodies : list Block) (st : State),
     orchestrating thr = true ->
     Forall (fun body => phase ∉ phases_of body) bodies ->
     exists st',
       run_block thr (sequential phase bodies) st = Ok tt st' /\
       total_of (phase_timings st') phase
       = fold_left dadd (measured bodies (clock_reads st))
           (total_of (phase_timings st) phase) /\
       (forall q, q <> phase ->
                  Forall (fun body => q ∉ phases_of body) bodies ->
                  phase_timings st' !! q = phase_timings st !! q)).
Proof.
  split.
  - intros this st. eexists. split; [apply GCPhase_dtor_eq|]. fields. split.
    + apply add_duration_total.
    + intros q Hne. now apply add_duration_other.
  - intros thr phase bodies st Hthr Hfree. now apply sequential_totals.
Qed.

(** ** ShenandoahWorkerSession *)

Lemma worker_id_of_set_same (thr : Thread) (id : Z) (st : State) :
  worker_id_of thr (with_tld_worker_id (<[tid thr := id]> (tld_worker_id st)) st) = id.
Proof. unfold worker_id_of. fields. now rewrite lookup_insert_eq. Qed.

Lemma worker_id_of_set_other (thr other : Thread) (id : Z) (st : State) :
  tid other <> tid thr ->
  worker_id_of other (with_tld_worker_id (<[tid thr := id]> (tld_worker_id st)) st)
  = worker_id_of other st.
Proof. intros H. unfold worker_id_of. fields. rewrite lookup_insert_ne; congruence. Qed.

Lemma WorkerSession_ctor_unassigned (thr : Thread) (worker : Z) (st : State) :
  worker_id_of thr st = INVALID_WORKER_ID ->
  ShenandoahWorkerSession_ctor thr worker st
  = Ok {| _worker_id := worker |}
       (with_tld_worker_id (<[tid thr := worker]> (tld_worker_id st)) st).
Proof. intros H. run. rewrite H, Z.eqb_refl. now destruct ASSERT. Qed.

Lemma WorkerSession_ctor_assigned (thr : Thread) (worker : Z) (st : State) :
  ASSERT = true ->
  worker_id_of thr st <> INVALID_WORKER_ID ->
  ShenandoahWorkerSession_ctor thr worker st = Fatal "Already set" st.
Proof. intros HA H. run. apply Z.eqb_neq in H. now rewrite HA, H. Qed.

Lemma WorkerSession_ctor_unchecked (thr : Thread) (worker : Z) (st : State) :
  ASSERT = false ->
  ShenandoahWorkerSession_ctor thr worker st
  = Ok {| _worker_id := worker |}
       (with_tld_worker_id (<[tid thr := worker]> (tld_worker_id st)) st).
Proof. intros HA. run. now rewrite HA. Qed.

Lemma WorkerSession_dtor_debug (thr : Thread) (this : ShenandoahWorkerSession) (st : State) :
  ASSERT = true ->
  worker_id_of thr st <> INVALID_WORKER_ID ->
  ShenandoahWorkerSession_dtor thr this st
  = Ok tt (with_tld_worker_id (<[tid thr := INVALID_WORKER_ID]> (tld_worker_id st)) st).
Proof. intros HA H. run. apply Z.eqb_neq in H. now rewrite HA, H. Qed.

Lemma WorkerSession_dtor_product (thr : Thread) (this : ShenandoahWorkerSession) (st : State) :
  ASSERT = false ->
  ShenandoahWorkerSession_dtor thr this st = Ok tt st.
Proof. intros HA. run. now rewrite HA. Qed.

(** C3, as the code has it.  A thread's slot holds the sentinel at start-up.
    Built with [ASSERT]: the constructor returns exactly when the thread's slot
    holds the sentinel (it stops at "Already set" otherwise, with nothing
    changed), the slot then reads the worker index it was given, and the
    destructor puts the sentinel back, provided the slot holds something other
    than the sentinel (it stops at "Must be set" otherwise).  Built without
    [ASSERT]: the constructor always returns and the slot reads the worker
    index it was given, whatever it held before; the destructor's body is empty
    and the slot keeps that index.  In both builds no other thread's slot
    moves. *)
Theorem WorkerSession_slot (thr : Thread) (worker : Z) (st : State) :
  worker_id_of thr initial_state = INVALID_WORKER_ID /\
  (ASSERT = true ->
   (worker_id_of thr st = INVALID_WORKER_ID ->
    exists this st1,
      ShenandoahWorkerSession_ctor thr worker st = Ok this st1 /\
      worker_id_of thr st1 = worker /\
      (forall other, tid other <> tid thr ->
                     worker_id_of other st1 = worker_id_of other st)) /\
   (worker_id_of thr st <> INVALID_WORKER_ID ->
    ShenandoahWorkerSession_ctor thr worker st = Fatal "Already set" st) /\
   (forall this, worker_id_of thr st <> INVALID_WORKER_ID ->
      exists st',
        ShenandoahWorkerSession_dtor thr this st = Ok tt st' /\
        worker_id_of thr st' = INVALID_WORKER_ID /\
        (forall other, tid other <> tid thr ->
                       worker_id_of other st' = worker_id_of other st)) /\
   (forall this, worker_id_of thr st = INVALID_WORKER_ID ->
      ShenandoahWorkerSession_dtor thr this st = Fatal "Must be set" st)) /\
  (ASSERT = false ->
   (exists this st1,
      ShenandoahWorkerSession_ctor thr worker st = Ok this st1 /\
      worker_id_of thr st1 = worker /\
      (forall other, tid other <> tid thr ->
                     worker_id_of other st1 = worker_id_of other st)) /\
   (forall this, ShenandoahWorkerSession_dtor thr this st = Ok tt st)).
Proof.
  split; [reflexivity|]. split.
  - intros HA. split; [|split; [|split]].
    + intros Hfree. do 2 eexists.
      split; [now apply WorkerSession_ctor_unassigned|].
      split; [apply worker_id_of_set_same|].
      intros other Hne. now apply worker_id_of_set_other.
    + intros Hset. now apply WorkerSession_ctor_assigned.
    + intros this Hset. eexists.
      split; [now apply WorkerSession_dtor_debug|].
      split; [apply worker_id_of_set_same|].
      intros other Hne. now apply worker_id_of_set_other.
    + intros this Hfree. run. now rewrite HA, Hfree, Z.eqb_refl.
  - intros HA. split.
    + do 2 eexists. split; [now apply WorkerSession_ctor_unchecked|].
      split; [apply worker_id_of_set_same|].
      intros other Hne. now apply worker_id_of_set_other.
    + intros this. now apply WorkerSession_dtor_product.
Qed.

(** C6.  The destructor of [ShenandoahConcurrentWorkerSession] commits one
    event with the current GC id and the name of the phase in the slot, and
    changes nothing else; the one of [ShenandoahParallelWorkerSession] commits
    one event with the GC id, the object's worker id and that name.  The
    worker id of the object is the one its constructor was given.  Whatever
    the base destructor does afterwards, that event is the only call added. *)
Theorem WorkerSession_dtor_events (thr : Thread) (this : ShenandoahWorkerSession) (st : State) :
  ShenandoahConcurrentWorkerSession_dtor thr this st
  = Ok tt (with_calls
             (calls st ++ [concurrent_event_commit (GCId_current thr)
                             (phase_name (_current_phase st))]) st) /\
  ShenandoahParallelWorkerSession_dtor thr this st
  = Ok tt (with_calls
             (calls st ++ [parallel_event_commit (GCId_current thr) (_worker_id this)
                             (phase_name (_current_phase st))]) st) /\
  (forall worker st0 st1,
     ShenandoahWorkerSession_ctor thr worker st0 = Ok this st1 ->
     _worker_id this = worker) /\
  calls (outcome_state (destroy_ConcurrentWorkerSession thr this st))
  = calls st ++ [concurrent_event_commit (GCId_current thr)
                   (phase_name (_current_phase st))] /\
  calls (outcome_state (destroy_ParallelWorkerSession thr this st))
  = calls st ++ [parallel_event_commit (GCId_current thr) (_worker_id this)
                   (phase_name (_current_phase st))].
Proof.
  split; [reflexivity|]. split; [reflexivity|]. split.
  - intros worker st0 st1. run.
    destruct ASSERT; [destruct (worker_id_of thr st0 =? INVALID_WORKER_ID)|];
      try discriminate; intros H; injection H as <- _; reflexivity.
  - split; run; destruct ASSERT; fields; try reflexivity;
      match goal with |- context [if ?c then _ else _] => destruct c end; reflexivity.
Qed.

(** ** Guards that do not touch the slot *)

(** C10.  The constructor and the destructor of [ShenandoahGCPauseMark] and
    of [ShenandoahGCWorkerPhase] return with the slot as they found it,
    whatever it held.  The same holds of every other operation of the file
    except the constructor and destructor of [ShenandoahGCPhase], whether it
    returns or stops at an assertion. *)
Theorem only_GCPhase_writes_slot
    (thr : Thread) (gc_id type phase cause worker : Z)
    (session : ShenandoahWorkerSession) (st : State) :
  (exists st', ShenandoahGCPauseMark_ctor gc_id type st = Ok tt st' /\
               _current_phase st' = _current_phase st) /\
  (exists st', ShenandoahGCPauseMark_dtor st = Ok tt st' /\
               _current_phase st' = _current_phase st) /\
  (exists st', ShenandoahGCWorkerPhase_ctor phase st = Ok phase st' /\
               _current_phase st' = _current_phase st) /\
  (exists st', ShenandoahGCWorkerPhase_dtor phase st = Ok tt st' /\
               _current_phase st' = _current_phase st) /\
  _current_phase (outcome_state (ShenandoahGCSession_ctor cause st)) = _current_phase st /\
  _current_phase (outcome_state (ShenandoahGCSession_dtor st)) = _current_phase st /\
  _current_phase (outcome_state (ShenandoahWorkerSession_ctor thr worker st))
  = _current_phase st /\
  _current_phase (outcome_state (destroy_ConcurrentWorkerSession thr session st))
  = _current_phase st /\
  _current_phase (outcome_state (destroy_ParallelWorkerSession thr session st))
  = _current_phase st /\
  _current_phase (outcome_state (is_current_phase_valid st)) = _current_phase st /\
  _current_phase (outcome_state (is_root_work_phase st)) = _current_phase st.
Proof.
  repeat match goal with |- _ /\ _ => split end;
    try (eexists; split; reflexivity);
    run; fields;
    repeat match goal with
           | |- context [if ?c then _ else _] => destruct c; fields
           end;
    reflexivity.
Qed.

(** * Further properties of the guards *)

(** ** Threads that may not open a phase *)

(** On a thread that fails the role check, a block runs through exactly when
    it opens no phase; otherwise it stops at the first phase constructor it
    reaches.  Either way the slot, the totals, the clock, the worker ids and
    the cause are as before. *)
Lemma run_block_rejected_frame (thr : Thread) :
  ASSERT = true ->
  orchestrating thr = false ->
  forall (b : Block) (st : State),
    let unchanged (st' : State) :=
      _current_phase st' = _current_phase st /\
      phase_timings st' = phase_timings st /\
      clock_reads st' = clock_reads st /\
      tld_worker_id st' = tld_worker_id st /\
      gc_cause st' = gc_cause st in
    match run_block thr b st with
    | Ok _ st' => phases_of b = [] /\ unchanged st'
    | Fatal msg st' =>
        phases_of b <> [] /\ msg = "Must be set by these threads" /\ unchanged st'
    end.
Proof.
  intros HA Hthr. induction b as [|g body IHbody next IHnext]; intros st; cbn zeta.
  - cbn. repeat split; reflexivity.
  - destruct g as [phase|phase|gc_id type]; cbn [run_block phases_of].
    + erewrite bind_Fatal by (now apply GCPhase_ctor_rejected).
      repeat split; discriminate.
    + erewrite bind_Ok by reflexivity.
      match goal with |- context [(run_block thr body ≫= _) ?s] =>
        pose proof (IHbody s) as Hb; cbn zeta in Hb;
        destruct (run_block thr body s) as [[] st2|msg st2] eqn:Ebody
      end.
      * erewrite bind_Ok by exact Ebody. erewrite bind_Ok by reflexivity.
        destruct Hb as (Hnil & Hb). rewrite Hnil. cbn [app].
        match goal with |- context [run_block thr next ?s] =>
          pose proof (IHnext s) as Hn; cbn zeta in Hn;
          destruct (run_block thr next s) as [[] st4|msg st4]
        end; fields; intuition congruence.
      * erewrite bind_Fatal by exact Ebody. fields.
        destruct Hb as (Hne & Hmsg & Hb). split; [|intuition congruence].
        intros Happ. apply app_eq_nil in Happ. tauto.
    + erewrite bind_Ok by reflexivity.
      match goal with |- context [(run_block thr body ≫= _) ?s] =>
        pose proof (IHbody s) as Hb; cbn zeta in Hb;
        destruct (run_block thr body s) as [[] st2|msg st2] eqn:Ebody
      end.
      * erewrite bind_Ok by exact Ebody. erewrite bind_Ok by reflexivity.
        destruct Hb as (Hnil & Hb). rewrite Hnil. cbn [app].
        match goal with |- context [run_block thr next ?s] =>
          pose proof (IHnext s) as Hn; cbn zeta in Hn;
          destruct (run_block thr next s) as [[] st4|msg st4]
        end; fields; intuition congruence.
      * erewrite bind_Fatal by exact Ebody. fields.
        destruct Hb as (Hne & Hmsg & Hb). split; [|intuition congruence].
        intros Happ. apply app_eq_nil in Happ. tauto.
Qed.

(** X1.  Built with [ASSERT], a thread that fails the role check of
    [ShenandoahGCPhase] can run a block of guards to the end exactly when the
    block opens no phase: the worker-phase and pause guards check no role.
    With a phase in it, the run stops at the first phase constructor reached.
    In both cases the slot, the registry totals and the clock are untouched.
    Built without [ASSERT], every thread runs every block to the end, and the
    slot is back at its value afterwards. *)
Theorem run_block_without_role (thr : Thread) (b : Block) (st : State) :
  (ASSERT = true -> orchestrating thr = false ->
   (phases_of b = [] -> exists st', run_block thr b st = Ok tt st') /\
   (phases_of b <> [] ->
    exists st', run_block thr b st = Fatal "Must be set by these threads" st') /\
   _current_phase (outcome_state (run_block thr b st)) = _current_phase st /\
   phase_timings (outcome_state (run_block thr b st)) = phase_timings st /\
   clock_reads (outcome_state (run_block thr b st)) = clock_reads st) /\
  (ASSERT = false ->
   exists st',
     run_block thr b st = Ok tt st' /\
     _current_phase st' = _current_phase st /\
     clock_reads st' = (clock_reads st + clock_reads_of b)%nat).
Proof.
  split.
  - intros HA Hthr. pose proof (run_block_rejected_frame thr HA Hthr b st) as H.
    cbn zeta in H. destruct (run_block thr b st) as [[] st'|msg st']; fields.
    + destruct H as (Hnil & Hs & Ht & Hc & _). split; [eauto|].
      split; [congruence|]. auto.
    + destruct H as (Hne & -> & Hs & Ht & Hc & _). split; [congruence|].
      split; [eauto|]. auto.
  - intros HA.
    destruct (run_block_frame_of_ctor thr
                (fun phase s => GCPhase_ctor_unchecked thr phase s HA) b st)
      as (st' & Hrun & Hcur & Hclk & _).
    exists st'. auto.
Qed.

(** ** Trackers destroyed out of order *)

(** X2.  The slot is one cell, not a stack.  If the tracker constructed first
    is destroyed first, the slot goes back to the original value while the
    second tracker is still alive, and the second tracker's destructor then
    leaves the first tracker's phase in the slot. *)
Theorem GCPhase_out_of_order (thr : Thread) (p1 p2 : Z) (st : State) :
  orchestrating thr = true ->
  exists g1 st1 g2 st2 st3 st4,
    ShenandoahGCPhase_ctor thr p1 st = Ok g1 st1 /\
    ShenandoahGCPhase_ctor thr p2 st1 = Ok g2 st2 /\
    ShenandoahGCPhase_dtor g1 st2 = Ok tt st3 /\
    _current_phase st3 = _current_phase st /\
    ShenandoahGCPhase_dtor g2 st3 = Ok tt st4 /\
    _current_phase st4 = p1.
Proof.
  intros Hthr. do 6 eexists.
  split; [now apply GCPhase_ctor_orchestrating|].
  split; [now apply GCPhase_ctor_orchestrating|].
  split; [apply GCPhase_dtor_eq|]. split; [reflexivity|].
  split; [apply GCPhase_dtor_eq|]. reflexivity.
Qed.

(** ** The two queries together *)

(** X3.  Whenever [is_root_work_phase] answers true, a phase is active:
    [is_current_phase_valid] answers true as well, and, built with [ASSERT],
    no [ShenandoahGCSession] can be opened. *)
Theorem root_work_phase_is_valid (cause : Z) (st : State) :
  enum_ok = true ->
  is_root_work_phase st = Ok true st ->
  is_current_phase_valid st = Ok true st /\
  (ASSERT = true ->
   ShenandoahGCSession_ctor cause st = Fatal "No current GC phase" st).
Proof.
  intros Hok Hroot. revert Hroot. unfold is_root_work_phase, current_phase.
  cbv [mbind mret M_bind M_ret].
  match goal with |- context [if ?c then _ else _] => destruct c eqn:Hb end;
    [intros _|discriminate].
  apply root_work_test in Hb.
  apply (enum_ok_root_work _ Hok), is_phase_lt in Hb.
  split.
  - rewrite is_current_phase_valid_eq.
    replace (_current_phase st <? _num_phases) with true
      by (symmetry; now apply Z.ltb_lt).
    reflexivity.
  - intros HA. now apply GCSession_ctor_active.
Qed.

(** ** Worker sessions: opening twice, closing twice *)

(** X4.  While a worker session with a proper index is open on a thread, a
    second constructor on that thread, whatever index it is given, stops at
    "Already set" and changes nothing when built with [ASSERT], and overwrites
    the slot with the new index when built without.  In either build a session
    on another thread whose slot is free opens, and both threads then read
    their own index. *)
Theorem WorkerSession_second_open (thr other : Thread) (w w' : Z) (st : State) :
  worker_id_of thr st = INVALID_WORKER_ID ->
  w <> INVALID_WORKER_ID ->
  exists this st1,
    ShenandoahWorkerSession_ctor thr w st = Ok this st1 /\
    (ASSERT = true ->
     ShenandoahWorkerSession_ctor thr w' st1 = Fatal "Already set" st1) /\
    (ASSERT = false ->
     exists this' st2,
       ShenandoahWorkerSession_ctor thr w' st1 = Ok this' st2 /\
       worker_id_of thr st2 = w') /\
    (tid other <> tid thr -> worker_id_of other st = INVALID_WORKER_ID ->
     exists this' st2,
       ShenandoahWorkerSession_ctor other w' st1 = Ok this' st2 /\
       worker_id_of thr st2 = w /\
       worker_id_of other st2 = w').
Proof.
  intros Hfree Hw. do 2 eexists.
  split; [now apply WorkerSession_ctor_unassigned|].
  split; [|split].
  - intros HA. apply WorkerSession_ctor_assigned; [exact HA|].
    now rewrite worker_id_of_set_same.
  - intros HA. do 2 eexists. split; [now apply WorkerSession_ctor_unchecked|].
    apply worker_id_of_set_same.
  - intros Hne Hofree. do 2 eexists.
    split; [apply WorkerSession_ctor_unassigned;
            rewrite worker_id_of_set_other by exact Hne; exact Hofree|].
    split; [|apply worker_id_of_set_same].
    rewrite worker_id_of_set_other by congruence. apply worker_id_of_set_same.
Qed.

Lemma WorkerSession_dtor_unassigned (thr : Thread) (this : ShenandoahWorkerSession) (st : State) :
  ASSERT = true ->
  worker_id_of thr st = INVALID_WORKER_ID ->
  ShenandoahWorkerSession_dtor thr this st = Fatal "Must be set" st.
Proof. intros HA H. run. now rewrite HA, H, Z.eqb_refl. Qed.

(** X5.  Built with [ASSERT], the destructor of a worker session stops at
    "Must be set", with nothing changed, whenever the thread's slot holds the
    sentinel.  So a session is closed at most once, and a session that was
    given the sentinel itself as its index opens but cannot be closed. *)
Theorem WorkerSession_close_unassigned (thr : Thread) (w : Z) (st : State) :
  ASSERT = true ->
  worker_id_of thr st = INVALID_WORKER_ID ->
  (forall this, ShenandoahWorkerSession_dtor thr this st = Fatal "Must be set" st) /\
  (w <> INVALID_WORKER_ID ->
   exists this st1 st2,
     ShenandoahWorkerSession_ctor thr w st = Ok this st1 /\
     ShenandoahWorkerSession_dtor thr this st1 = Ok tt st2 /\
     ShenandoahWorkerSession_dtor thr this st2 = Fatal "Must be set" st2) /\
  (exists this st1,
     ShenandoahWorkerSession_ctor thr INVALID_WORKER_ID st = Ok this st1 /\
     ShenandoahWorkerSession_dtor thr this st1 = Fatal "Must be set" st1).
Proof.
  intros HA Hfree. split; [|split].
  - intros this. now apply WorkerSession_dtor_unassigned.
  - intros Hw. do 3 eexists.
    split; [now apply WorkerSession_ctor_unassigned|].
    split; [apply WorkerSession_dtor_debug;
            [exact HA|now rewrite worker_id_of_set_same]|].
    apply WorkerSession_dtor_unassigned; [exact HA|apply worker_id_of_set_same].
  - do 2 eexists. split; [now apply WorkerSession_ctor_unassigned|].
    apply WorkerSession_dtor_unassigned; [exact HA|apply worker_id_of_set_same].
Qed.

(** ** Guards composed *)

Lemma destroy_ParallelWorkerSession_calls
    (thr : Thread) (this : ShenandoahWorkerSession) (st : State) :
  calls (outcome_state (destroy_ParallelWorkerSession thr this st))
  = calls st ++ [parallel_event_commit (GCId_current thr) (_worker_id this)
                   (phase_name (_current_phase st))].
Proof.
  run. destruct ASSERT; fields; [|reflexivity].
  match goal with |- context [if ?c then _ else _] => destruct c end; reflexivity.
Qed.

(** X6.  A worker's event is labelled with the phase the orchestrating thread
    has open.  After that thread opened phase [p] and ran any well-nested
    block inside it, a parallel worker session opened and destroyed on a worker
    thread whose slot is free commits exactly one event, carrying the worker's
    index and the name of [p]. *)
Theorem worker_event_names_open_phase
    (thr worker : Thread) (p w : Z) (body : Block) (st : State) :
  orchestrating thr = true ->
  worker_id_of worker st = INVALID_WORKER_ID ->
  exists this st1 st2 session st3,
    ShenandoahGCPhase_ctor thr p st = Ok this st1 /\
    run_block thr body st1 = Ok tt st2 /\
    ShenandoahWorkerSession_ctor worker w st2 = Ok session st3 /\
    calls (outcome_state (destroy_ParallelWorkerSession worker session st3))
    = calls st2 ++ [parallel_event_commit (GCId_current worker) w (phase_name p)].
Proof.
  intros Hthr Hfree.
  destruct (run_block_frame thr Hthr body
              (with_clock_reads (S (clock_reads st)) (with_current_phase p st)))
    as (st2 & Hbody & Hcur2 & _ & _ & Htld2 & _).
  fields.
  assert (Hfree2 : worker_id_of worker st2 = INVALID_WORKER_ID)
    by (unfold worker_id_of in *; now rewrite Htld2).
  do 5 eexists. split; [now apply GCPhase_ctor_orchestrating|].
  split; [exact Hbody|].
  split; [now apply WorkerSession_ctor_unassigned|].
  rewrite destroy_ParallelWorkerSession_calls. fields. now rewrite Hcur2.
Qed.

(** X7.  A whole cycle.  From a state with no phase active, the session opens,
    any well-nested block of guards run by the orchestrating thread inside it
    returns with the heap's cause still the session's cause, and the session
    then closes: the cause is [_no_gc], the slot holds the sentinel and no
    worker id has moved. *)
Theorem GCSession_around_block (thr : Thread) (cause : Z) (b : Block) (st : State) :
  enum_ok = true ->
  orchestrating thr = true ->
  _current_phase st = _invalid_phase ->
  exists st1 st2 st3,
    ShenandoahGCSession_ctor cause st = Ok tt st1 /\
    run_block thr b st1 = Ok tt st2 /\
    gc_cause st2 = cause /\
    ShenandoahGCSession_dtor st2 = Ok tt st3 /\
    gc_cause st3 = _no_gc /\
    _current_phase st3 = _invalid_phase /\
    tld_worker_id st3 = tld_worker_id st.
Proof.
  intros Hok Hthr Hidle. apply enum_ok_sentinel in Hok.
  assert (Hctor : exists st1, ShenandoahGCSession_ctor cause st = Ok tt st1 /\
                    gc_cause st1 = cause /\ _current_phase st1 = _current_phase st /\
                    tld_worker_id st1 = tld_worker_id st).
  { run. replace (_current_phase st <? _num_phases) with false
      by (symmetry; apply Z.ltb_ge; lia).
    destruct ASSERT; (eexists; split; [reflexivity|]; repeat split). }
  destruct Hctor as (st1 & Hctor & Hcause1 & Hcur1 & Htld1).
  destruct (run_block_frame thr Hthr b st1)
    as (st2 & Hrun & Hcur2 & _ & _ & Htld2 & Hcause2).
  exists st1, st2. eexists. split; [exact Hctor|]. split; [exact Hrun|].
  split; [congruence|].
  split; [apply GCSession_dtor_idle; lia|]. fields.
  repeat split; congruence.
Qed.

(** X8.  A pause opened inside a cycle reports the cycle's cause.  After the
    session opened with [cause] and the orchestrating thread ran any
    well-nested block, the constructor of [ShenandoahGCPauseMark] makes its six
    calls in the order of the source, and the pause statistics are initialised
    with [cause]. *)
Theorem PauseMark_reports_session_cause
    (thr : Thread) (cause gc_id type : Z) (b : Block) (st : State) :
  enum_ok = true ->
  orchestrating thr = true ->
  _current_phase st = _invalid_phase ->
  exists st1 st2 st3,
    ShenandoahGCSession_ctor cause st = Ok tt st1 /\
    run_block thr b st1 = Ok tt st2 /\
    ShenandoahGCPauseMark_ctor gc_id type st2 = Ok tt st3 /\
    calls st3
    = calls st2 ++ [ GCIdMark_ctor gc_id; SvcGCMarker_ctor type; IsGCActiveMark_ctor;
                     timer_register_gc_pause_start "Shenandoah";
                     TraceMemoryManagerStats_initialize stw_memory_manager cause
                       pause_stats;
                     heuristics_record_gc_start ].
Proof.
  intros Hok Hthr Hidle. apply enum_ok_sentinel in Hok.
  destruct (GCSession_ctor_idle cause st) as (st1 & Hctor & Hcause1 & _); [lia|].
  destruct (run_block_frame thr Hthr b st1)
    as (st2 & Hrun & _ & _ & _ & _ & Hcause2).
  exists st1, st2. eexists. split; [exact Hctor|]. split; [exact Hrun|].
  split; [reflexivity|]. fields.
  rewrite Hcause2, Hcause1. now rewrite <- !app_assoc.
Qed.

(** X9.  The session resets the cause, it does not restore it.  Nothing stops
    a second session from opening inside the first; it overwrites the cause,
    and its destructor leaves [_no_gc] behind, not the outer session's cause,
    while the outer session is still open. *)
Theorem GCSession_resets_not_restores (outer inner : Z) (st : State) :
  enum_ok = true ->
  _current_phase st = _invalid_phase ->
  exists st1 st2 st3,
    ShenandoahGCSession_ctor outer st = Ok tt st1 /\
    gc_cause st1 = outer /\
    ShenandoahGCSession_ctor inner st1 = Ok tt st2 /\
    gc_cause st2 = inner /\
    ShenandoahGCSession_dtor st2 = Ok tt st3 /\
    gc_cause st3 = _no_gc.
Proof.
  intros Hok Hidle. apply enum_ok_sentinel in Hok.
  destruct (GCSession_ctor_idle outer st) as (st1 & Hc1 & Hcause1 & Hcur1); [lia|].
  destruct (GCSession_ctor_idle inner st1) as (st2 & Hc2 & Hcause2 & Hcur2); [lia|].
  exists st1, st2. eexists. split; [exact Hc1|]. split; [exact Hcause1|].
  split; [exact Hc2|]. split; [exact Hcause2|].
  split; [apply GCSession_dtor_idle; lia|]. reflexivity.
Qed.

(** ** What a block leaves in the log *)

Lemma recorded_phases_app (l1 l2 : list Call) :
  recorded_phases (l1 ++ l2) = recorded_phases l1 ++ recorded_phases l2.
Proof.
  induction l1 as [|c l1 IH]; [reflexivity|].
  destruct c; cbn [app recorded_phases]; now rewrite IH.
Qed.

Lemma closing_order_phases (b : Block) : closing_order b ≡ₚ phases_of b.
Proof.
  induction b as [|g body IHbody next IHnext]; [reflexivity|].
  destruct g; cbn [closing_order phases_of]; rewrite ?IHbody, ?IHnext;
    [symmetry; apply Permutation_middle | reflexivity | reflexivity].
Qed.

Lemma run_block_log (thr : Thread) :
  orchestrating thr = true ->
  forall (b : Block) (st : State),
  exists st' log,
    run_block thr b st = Ok tt st' /\
    calls st' = calls st ++ log /\
    recorded_phases log = closing_order b /\
    clock_reads st' = (clock_reads st + clock_reads_of b)%nat /\
    gc_cause st' = gc_cause st.
Proof.
  intros Hthr. induction b as [|g body IHbody next IHnext]; intros st.
  - exists st, []. cbn. rewrite app_nil_r. repeat split. lia.
  - destruct g as [phase|phase|gc_id type]; cbn [run_block].
    + erewrite bind_Ok by (now apply GCPhase_ctor_orchestrating).
      match goal with |- context [(run_block thr body ≫= _) ?s] =>
        destruct (IHbody s) as (st2 & lb & Hbody & Hlog2 & Hrec2 & Hclk2 & Hcause2)
      end.
      erewrite bind_Ok by exact Hbody.
      erewrite bind_Ok by apply GCPhase_dtor_eq.
      match goal with |- context [run_block thr next ?s] =>
        destruct (IHnext s) as (st4 & ln & Hnext & Hlog4 & Hrec4 & Hclk4 & Hcause4)
      end.
      fields.
      eexists st4, (lb ++ [_] ++ ln). split; [exact Hnext|].
      split; [rewrite Hlog4, Hlog2; now rewrite <- !app_assoc|].
      split; [rewrite !recorded_phases_app, Hrec2, Hrec4; reflexivity|].
      cbn [clock_reads_of]. split; [lia|congruence].
    + erewrite bind_Ok by reflexivity.
      match goal with |- context [(run_block thr body ≫= _) ?s] =>
        destruct (IHbody s) as (st2 & lb & Hbody & Hlog2 & Hrec2 & Hclk2 & Hcause2)
      end.
      erewrite bind_Ok by exact Hbody.
      erewrite bind_Ok by reflexivity.
      match goal with |- context [run_block thr next ?s] =>
        destruct (IHnext s) as (st4 & ln & Hnext & Hlog4 & Hrec4 & Hclk4 & Hcause4)
      end.
      fields.
      eexists st4, ([_] ++ lb ++ [_] ++ ln). split; [exact Hnext|].
      split; [rewrite Hlog4, Hlog2; now rewrite <- !app_assoc|].
      split; [rewrite !recorded_phases_app, Hrec2, Hrec4; reflexivity|].
      cbn [clock_reads_of]. split; [lia|congruence].
    + erewrite bind_Ok by reflexivity.
      match goal with |- context [(run_block thr body ≫= _) ?s] =>
        destruct (IHbody s) as (st2 & lb & Hbody & Hlog2 & Hrec2 & Hclk2 & Hcause2)
      end.
      erewrite bind_Ok by exact Hbody.
      erewrite bind_Ok by reflexivity.
      match goal with |- context [run_block thr next ?s] =>
        destruct (IHnext s) as (st4 & ln & Hnext & Hlog4 & Hrec4 & Hclk4 & Hcause4)
      end.
      fields.
      eexists st4, ([_; _; _; _; _; _] ++ lb ++ [_; _] ++ ln). split; [exact Hnext|].
      split; [rewrite Hlog4, Hlog2; cbn [app]; now rewrite <- !app_assoc|].
      split; [rewrite !recorded_phases_app, Hrec2, Hrec4; reflexivity|].
      cbn [clock_reads_of]. split; [lia|congruence].
Qed.

(** X10.  Run by the orchestrating thread, a well-nested block reports every
    phase scope to the registry exactly once, a scope after all the scopes
    inside it and before the scopes that follow it; the log only grows. *)
Theorem run_block_records_inner_first (thr : Thread) (b : Block) (st : State) :
  orchestrating thr = true ->
  exists st' log,
    run_block thr b st = Ok tt st' /\
    calls st' = calls st ++ log /\
    recorded_phases log = closing_order b /\
    recorded_phases log ≡ₚ phases_of b.
Proof.
  intros Hthr.
  destruct (run_block_log thr Hthr b st) as (st' & log & Hrun & Hlog & Hrec & _).
  exists st', log. split; [exact Hrun|]. split; [exact Hlog|].
  split; [exact Hrec|]. rewrite Hrec. apply closing_order_phases.
Qed.

(** X11.  The time reported for a phase spans everything inside it.  The
    destructor's report is the last entry of the scope's log, after the
    reports of all inner scopes, and its elapsed time is the clock reading
    taken after all of the body's readings minus the reading taken by the
    constructor. *)
Theorem GCPhase_elapsed_spans_body (thr : Thread) (p : Z) (body : Block) (st : State) :
  orchestrating thr = true ->
  exists this st1 st2 st3 log,
    ShenandoahGCPhase_ctor thr p st = Ok this st1 /\
    run_block thr body st1 = Ok tt st2 /\
    ShenandoahGCPhase_dtor this st2 = Ok tt st3 /\
    recorded_phases log = closing_order body /\
    calls st3
    = calls st ++ log ++
      [timings_record_phase_time p
         (dsub (elapsedTime_at (S (clock_reads st + clock_reads_of body)))
               (elapsedTime_at (clock_reads st)))].
Proof.
  intros Hthr.
  destruct (run_block_log thr Hthr body
              (with_clock_reads (S (clock_reads st)) (with_current_phase p st)))
    as (st2 & log & Hbody & Hlog & Hrec & Hclk & _).
  fields. do 4 eexists. exists log.
  split; [now apply GCPhase_ctor_orchestrating|]. split; [exact Hbody|].
  split; [apply GCPhase_dtor_eq|]. split; [exact Hrec|].
  fields. rewrite Hlog, Hclk. now rewrite <- app_assoc.
Qed.

End Properties.

(** * The model on concrete inputs: a build with ASSERT *)

Section Debug_build.

#[local] Existing Instance test_decls.
#[local] Existing Instance debug_build.

(** Phase 1 around phase 2: the slot goes sentinel, 1, 2, 1, sentinel. *)
Example nested_phases_slot_sequence :
  exists g1 s1 g2 s2 s3 s4,
    _current_phase initial_state = _invalid_phase /\
    ShenandoahGCPhase_ctor vm_thread 1 initial_state = Ok g1 s1 /\
    _current_phase s1 = 1 /\
    ShenandoahGCPhase_ctor vm_thread 2 s1 = Ok g2 s2 /\
    _current_phase s2 = 2 /\
    ShenandoahGCPhase_dtor g2 s2 = Ok tt s3 /\
    _current_phase s3 = 1 /\
    ShenandoahGCPhase_dtor g1 s3 = Ok tt s4 /\
    _current_phase s4 = _invalid_phase.
Proof. do 6 eexists. repeat split; reflexivity. Qed.

(** A whole cycle: the worker's event names phase 1 and worker 2, the phase's
    wall-time reaches the registry, the cause ends at [_no_gc], the slot at the
    sentinel and the worker's slot at the sentinel. *)
Example one_cycle_run :
  (exists st, one_cycle initial_state = Ok tt st) /\
  calls (outcome_state (one_cycle initial_state))
  = [ heap_set_gc_cause 5; timer_register_gc_start; tracer_report_gc_start 5;
      heap_trace_heap BeforeGC; policy_record_cycle_start;
      heuristics_record_cycle_start;
      TraceMemoryManagerStats_initialize cycle_memory_manager 5 all_stats;
      parallel_event_commit 7 2 "scan_roots";
      timings_record_phase_time 1 10;
      heuristics_record_cycle_end; timer_register_gc_end;
      heap_trace_heap AfterGC; tracer_report_gc_end; heap_set_gc_cause 0 ] /\
  total_of (phase_timings (outcome_state (one_cycle initial_state))) 1 = 10 /\
  gc_cause (outcome_state (one_cycle initial_state)) = _no_gc /\
  _current_phase (outcome_state (one_cycle initial_state)) = _invalid_phase /\
  worker_id_of worker_thread (outcome_state (one_cycle initial_state))
  = INVALID_WORKER_ID.
Proof.
  split; [eexists; vm_compute; reflexivity|].
  repeat split; vm_compute; reflexivity.
Qed.

(** A second worker session on a thread that still holds an id stops at the
    constructor's assertion. *)
Example second_worker_session_rejected :
  exists this st1,
    ShenandoahWorkerSession_ctor worker_thread 2 initial_state = Ok this st1 /\
    ShenandoahWorkerSession_ctor worker_thread 4 st1 = Fatal "Already set" st1.
Proof.
  do 2 eexists. split; [reflexivity|].
  apply WorkerSession_ctor_assigned; [reflexivity|].
  rewrite worker_id_of_set_same. discriminate.
Qed.

Lemma GCPhase_restores_slot_witness :
  orchestrating vm_thread = true /\
  exists this st1 st2 st3,
    ShenandoahGCPhase_ctor vm_thread 1 initial_state = Ok this st1 /\
    _parent_phase this = _current_phase initial_state /\
    _current_phase st1 = 1 /\
    run_block vm_thread nested_body st1 = Ok tt st2 /\
    _current_phase st2 = 1 /\
    ShenandoahGCPhase_dtor this st2 = Ok tt st3 /\
    _current_phase st3 = _current_phase initial_state.
Proof.
  split; [reflexivity|].
  apply (GCPhase_restores_slot vm_thread 1 nested_body initial_state). reflexivity.
Defined.

Lemma GCPhase_accumulates_elapsed_witness :
  orchestrating vm_thread = true /\
  Forall (fun body => 1 ∉ phases_of body) [Done; nested_body] /\
  exists st',
    run_block vm_thread (sequential 1 [Done; nested_body]) initial_state = Ok tt st' /\
    total_of (phase_timings st') 1 = 0 + (10 - 0) + (50 - 20) /\
    (3 <> 1 -> Forall (fun body => 3 ∉ phases_of body) [Done; nested_body] ->
     phase_timings st' !! 3 = phase_timings initial_state !! 3).
Proof.
  assert (Hfree : forall q : Z, q <> 2 ->
            Forall (fun body => q ∉ phases_of body) [Done; nested_body]).
  { intros q Hq. repeat apply Forall_cons_2; [apply not_elem_of_nil | | apply Forall_nil_2].
    cbn. rewrite elem_of_cons, elem_of_nil. tauto. }
  split; [reflexivity|]. split; [apply Hfree; discriminate|].
  destruct (proj2 GCPhase_accumulates_elapsed vm_thread 1 [Done; nested_body]
              initial_state eq_refl (Hfree 1 ltac:(discriminate)))
    as (st' & Hrun & Htotal & Hother).
  exists st'. split; [exact Hrun|]. split; [exact Htotal|].
  intros Hne Hq. now apply Hother.
Defined.

Lemma WorkerSession_dtor_events_witness :
  exists this st1,
    ShenandoahWorkerSession_ctor worker_thread 2 (with_current_phase 1 initial_state)
    = Ok this st1 /\
    _worker_id this = 2 /\
    calls (outcome_state (destroy_ParallelWorkerSession worker_thread this st1))
    = calls st1 ++ [parallel_event_commit 7 2 "scan_roots"].
Proof.
  exists {| _worker_id := 2 |}. eexists. split; [reflexivity|].
  match goal with |- context [destroy_ParallelWorkerSession _ ?t ?s] =>
    destruct (WorkerSession_dtor_events worker_thread t s) as (_ & _ & Hid & _ & Hev)
  end.
  split; [apply (Hid 2 (with_current_phase 1 initial_state) _ eq_refl)|exact Hev].
Defined.

Lemma GCSession_dtor_order_witness :
  enum_ok = true /\
  _current_phase initial_state = _invalid_phase /\
  exists st1 st',
    ShenandoahGCSession_ctor 5 initial_state = Ok tt st1 /\
    gc_cause st1 = 5 /\
    ShenandoahGCSession_dtor st1 = Ok tt st' /\
    calls st' = calls st1 ++ [ heuristics_record_cycle_end; timer_register_gc_end;
                               heap_trace_heap AfterGC; tracer_report_gc_end;
                               heap_set_gc_cause _no_gc ] /\
    gc_cause st' = _no_gc /\
    gc_cause st' <> 5.
Proof.
  split; [reflexivity|]. split; [reflexivity|].
  destruct (GCSession_ctor_idle 5 initial_state) as (st1 & Hctor & Hcause & Hslot);
    [cbn; lia|].
  destruct (GCSession_dtor_order 5 initial_state st1)
    as (st1' & st' & Hctor' & _ & Hdtor & Hcalls & Hreset & Hgone & _);
    [reflexivity | reflexivity | rewrite Hslot; reflexivity|].
  exists st1, st'. split; [exact Hctor|]. split; [exact Hcause|].
  split; [exact Hdtor|]. split; [exact Hcalls|]. split; [exact Hreset|].
  apply Hgone. discriminate.
Defined.

Lemma is_root_work_phase_pure_witness :
  enum_ok = true /\
  is_root_work_phase initial_state = Ok false initial_state /\
  is_root_work_phase (with_current_phase 3 initial_state)
  = Ok true (with_current_phase 3 initial_state).
Proof.
  split; [reflexivity|]. split.
  - destruct (is_root_work_phase_pure initial_state) as (b & Hrun & _ & Hs).
    rewrite Hrun. rewrite Hs; reflexivity.
  - destruct (is_root_work_phase_pure (with_current_phase 3 initial_state))
      as (b & Hrun & Hb & _).
    rewrite Hrun. replace b with true; [reflexivity|].
    symmetry. apply Hb. apply root_work_test. reflexivity.
Defined.

Lemma is_current_phase_valid_iff_not_sentinel_witness :
  enum_ok = true /\
  is_current_phase_valid initial_state = Ok false initial_state /\
  is_phase (_current_phase (with_current_phase 1 initial_state)) = true /\
  is_current_phase_valid (with_current_phase 1 initial_state)
  = Ok true (with_current_phase 1 initial_state).
Proof.
  split; [reflexivity|].
  destruct (is_current_phase_valid_iff_not_sentinel
              (with_current_phase 1 initial_state))
    as (_ & Hstart & _ & Hmember & _); [reflexivity|].
  split; [exact Hstart|]. split; [reflexivity|]. apply Hmember. reflexivity.
Defined.

End Debug_build.

(** * The model on concrete inputs: a build without ASSERT *)

Section Product_build.

#[local] Existing Instance test_decls.
#[local] Existing Instance product_build.

(** Built without [ASSERT], a worker session on thread 3 with worker index 2,
    opened at start-up and closed again, leaves 2 in the thread's slot: the
    slot read outside the session is not the sentinel. *)
Lemma WorkerSession_product_build_keeps_id :
  exists this st1 st2,
    worker_id_of worker_thread initial_state = INVALID_WORKER_ID /\
    ShenandoahWorkerSession_ctor worker_thread 2 initial_state = Ok this st1 /\
    ShenandoahWorkerSession_dtor worker_thread this st1 = Ok tt st2 /\
    worker_id_of worker_thread st2 = 2 /\
    worker_id_of worker_thread st2 <> INVALID_WORKER_ID.
Proof.
  do 3 eexists. split; [reflexivity|]. split; [reflexivity|].
  split; [reflexivity|]. split; [apply worker_id_of_set_same|].
  rewrite worker_id_of_set_same. discriminate.
Qed.

(** Built without [ASSERT], a session opens and closes with phase 1 in the
    slot: no check stops the constructor or the destructor. *)
Lemma GCSession_product_build_unchecked :
  is_phase (_current_phase (with_current_phase 1 initial_state)) = true /\
  (exists st',
     ShenandoahGCSession_ctor 5 (with_current_phase 1 initial_state) = Ok tt st' /\
     gc_cause st' = 5) /\
  (exists st',
     ShenandoahGCSession_dtor (with_current_phase 1 initial_state) = Ok tt st' /\
     gc_cause st' = _no_gc).
Proof.
  split; [reflexivity|]. split.
  - eexists. split; [apply GCSession_ctor_unchecked; reflexivity|reflexivity].
  - eexists. split; [apply GCSession_dtor_unchecked; reflexivity|reflexivity].
Qed.

(** Built without [ASSERT], a worker thread opens phase 1: the constructor
    returns and the slot holds 1. *)
Lemma GCPhase_product_build_unchecked :
  is_Worker_thread worker_thread = true /\
  exists this st',
    ShenandoahGCPhase_ctor worker_thread 1 initial_state = Ok this st' /\
    _current_phase st' = 1.
Proof.
  split; [reflexivity|]. do 2 eexists.
  split; [apply GCPhase_ctor_unchecked; reflexivity|reflexivity].
Qed.

End Product_build.

(** * Further runs of the build with ASSERT *)

Section Debug_build_runs.

#[local] Existing Instance test_decls.
#[local] Existing Instance debug_build.

Lemma GCPhase_out_of_order_witness :
  orchestrating vm_thread = true /\
  exists g1 st1 g2 st2 st3 st4,
    ShenandoahGCPhase_ctor vm_thread 1 initial_state = Ok g1 st1 /\
    ShenandoahGCPhase_ctor vm_thread 2 st1 = Ok g2 st2 /\
    ShenandoahGCPhase_dtor g1 st2 = Ok tt st3 /\
    _current_phase st3 = _current_phase initial_state /\
    ShenandoahGCPhase_dtor g2 st3 = Ok tt st4 /\
    _current_phase st4 = 1.
Proof.
  split; [reflexivity|].
  exact (GCPhase_out_of_order vm_thread 1 2 initial_state eq_refl).
Defined.

Lemma root_work_phase_is_valid_witness :
  enum_ok = true /\
  is_root_work_phase (with_current_phase 3 initial_state)
  = Ok true (with_current_phase 3 initial_state) /\
  is_current_phase_valid (with_current_phase 3 initial_state)
  = Ok true (with_current_phase 3 initial_state) /\
  ASSERT = true /\
  ShenandoahGCSession_ctor 5 (with_current_phase 3 initial_state)
  = Fatal "No current GC phase" (with_current_phase 3 initial_state).
Proof.
  destruct (root_work_phase_is_valid 5 (with_current_phase 3 initial_state))
    as (Hvalid & Hsession); [reflexivity | reflexivity |].
  split; [reflexivity|]. split; [reflexivity|]. split; [exact Hvalid|].
  split; [reflexivity|]. apply Hsession. reflexivity.
Defined.

Lemma WorkerSession_close_unassigned_witness :
  ASSERT = true /\
  worker_id_of worker_thread initial_state = INVALID_WORKER_ID /\
  ShenandoahWorkerSession_dtor worker_thread {| _worker_id := 2 |} initial_state
  = Fatal "Must be set" initial_state /\
  (exists this st1 st2,
     ShenandoahWorkerSession_ctor worker_thread 2 initial_state = Ok this st1 /\
     ShenandoahWorkerSession_dtor worker_thread this st1 = Ok tt st2 /\
     ShenandoahWorkerSession_dtor worker_thread this st2 = Fatal "Must be set" st2) /\
  (exists this st1,
     ShenandoahWorkerSession_ctor worker_thread INVALID_WORKER_ID initial_state
     = Ok this st1 /\
     ShenandoahWorkerSession_dtor worker_thread this st1 = Fatal "Must be set" st1).
Proof.
  destruct (WorkerSession_close_unassigned worker_thread 2 initial_state)
    as (Hnever & Htwice & Hsentinel); [reflexivity | reflexivity |].
  split; [reflexivity|]. split; [reflexivity|]. split; [apply Hnever|].
  split; [apply Htwice; discriminate|exact Hsentinel].
Defined.

Lemma worker_event_names_open_phase_witness :
  orchestrating vm_thread = true /\
  worker_id_of worker_thread initial_state = INVALID_WORKER_ID /\
  exists this st1 st2 session st3,
    ShenandoahGCPhase_ctor vm_thread 1 initial_state = Ok this st1 /\
    run_block vm_thread nested_body st1 = Ok tt st2 /\
    ShenandoahWorkerSession_ctor worker_thread 2 st2 = Ok session st3 /\
    calls (outcome_state (destroy_ParallelWorkerSession worker_thread session st3))
    = calls st2 ++ [parallel_event_commit 7 2 "scan_roots"].
Proof.
  split; [reflexivity|]. split; [reflexivity|].
  exact (worker_event_names_open_phase vm_thread worker_thread 1 2 nested_body
           initial_state eq_refl eq_refl).
Defined.

Lemma GCSession_around_block_witness :
  enum_ok = true /\
  orchestrating vm_thread = true /\
  _current_phase initial_state = _invalid_phase /\
  exists st1 st2 st3,
    ShenandoahGCSession_ctor 5 initial_state = Ok tt st1 /\
    run_block vm_thread nested_body st1 = Ok tt st2 /\
    gc_cause st2 = 5 /\
    ShenandoahGCSession_dtor st2 = Ok tt st3 /\
    gc_cause st3 = _no_gc /\
    _current_phase st3 = _invalid_phase /\
    tld_worker_id st3 = tld_worker_id initial_state.
Proof.
  split; [reflexivity|]. split; [reflexivity|]. split; [reflexivity|].
  apply (GCSession_around_block vm_thread 5 nested_body initial_state); reflexivity.
Defined.

Lemma PauseMark_reports_session_cause_witness :
  enum_ok = true /\
  orchestrating vm_thread = true /\
  _current_phase initial_state = _invalid_phase /\
  exists st1 st2 st3,
    ShenandoahGCSession_ctor 5 initial_state = Ok tt st1 /\
    run_block vm_thread nested_body st1 = Ok tt st2 /\
    ShenandoahGCPauseMark_ctor 7 0 st2 = Ok tt st3 /\
    calls st3
    = calls st2 ++ [ GCIdMark_ctor 7; SvcGCMarker_ctor 0; IsGCActiveMark_ctor;
                     timer_register_gc_pause_start "Shenandoah";
                     TraceMemoryManagerStats_initialize stw_memory_manager 5
                       pause_stats;
                     heuristics_record_gc_start ].
Proof.
  split; [reflexivity|]. split; [reflexivity|]. split; [reflexivity|].
  apply (PauseMark_reports_session_cause vm_thread 5 7 0 nested_body initial_state);
    reflexivity.
Defined.

Lemma GCSession_resets_not_restores_witness :
  enum_ok = true /\
  _current_phase initial_state = _invalid_phase /\
  exists st1 st2 st3,
    ShenandoahGCSession_ctor 5 initial_state = Ok tt st1 /\
    gc_cause st1 = 5 /\
    ShenandoahGCSession_ctor 6 st1 = Ok tt st2 /\
    gc_cause st2 = 6 /\
    ShenandoahGCSession_dtor st2 = Ok tt st3 /\
    gc_cause st3 = _no_gc.
Proof.
  split; [reflexivity|]. split; [reflexivity|].
  apply (GCSession_resets_not_restores 5 6 initial_state); reflexivity.
Defined.

Lemma run_block_records_inner_first_witness :
  orchestrating vm_thread = true /\
  exists st' log,
    run_block vm_thread (Scope (GCPhase 1) nested_body Done) initial_state = Ok tt st' /\
    calls st' = calls initial_state ++ log /\
    recorded_phases log = [2; 1].
Proof.
  split; [reflexivity|].
  destruct (run_block_records_inner_first vm_thread
              (Scope (GCPhase 1) nested_body Done) initial_state eq_refl)
    as (st' & log & Hrun & Hlog & Hrec & _).
  exists st', log. split; [exact Hrun|]. split; [exact Hlog|exact Hrec].
Defined.

Lemma GCPhase_elapsed_spans_body_witness :
  orchestrating vm_thread = true /\
  exists this st1 st2 st3 log,
    ShenandoahGCPhase_ctor vm_thread 1 initial_state = Ok this st1 /\
    run_block vm_thread nested_body st1 = Ok tt st2 /\
    ShenandoahGCPhase_dtor this st2 = Ok tt st3 /\
    recorded_phases log = [2] /\
    calls st3 = calls initial_state ++ log ++ [timings_record_phase_time 1 (30 - 0)].
Proof.
  split; [reflexivity|].
  exact (GCPhase_elapsed_spans_body vm_thread 1 nested_body initial_state eq_refl).
Defined.

End Debug_build_runs.

(** * Runs that compare the two builds *)

Section Both_builds.

#[local] Existing Instance test_decls.

Lemma GCSession_checks_no_phase_witness :
  @ASSERT debug_build = true /\
  is_phase (_current_phase (with_current_phase 1 debug_start)) = true /\
  ShenandoahGCSession_ctor 5 (with_current_phase 1 debug_start)
  = Fatal "No current GC phase" (with_current_phase 1 debug_start) /\
  enum_ok = true /\
  _current_phase debug_start = _invalid_phase /\
  (exists st', ShenandoahGCSession_ctor 5 debug_start = Ok tt st') /\
  (exists st', ShenandoahGCSession_dtor debug_start = Ok tt st') /\
  @ASSERT product_build = false /\
  (exists st',
     ShenandoahGCSession_ctor 5 (with_current_phase 1 product_start) = Ok tt st' /\
     gc_cause st' = 5) /\
  (exists st',
     ShenandoahGCSession_dtor (with_current_phase 1 product_start) = Ok tt st' /\
     gc_cause st' = _no_gc).
Proof.
  destruct (GCSession_checks_no_phase 5 (with_current_phase 1 debug_start))
    as (Hactive & _ & _).
  destruct (GCSession_checks_no_phase 5 debug_start) as (_ & Hidle & _).
  destruct (GCSession_checks_no_phase 5 (with_current_phase 1 product_start))
    as (_ & _ & Hproduct).
  destruct (Hproduct eq_refl) as (Hctor & Hcause & Hdtor).
  split; [reflexivity|]. split; [reflexivity|].
  split; [exact (proj1 (Hactive eq_refl eq_refl))|].
  split; [reflexivity|]. split; [reflexivity|].
  split; [exact (proj1 (Hidle eq_refl eq_refl))|].
  split; [exact (proj2 (Hidle eq_refl eq_refl))|].
  split; [reflexivity|]. split; [|exact Hdtor].
  eexists. split; [exact Hctor|exact Hcause].
Defined.

Lemma WorkerSession_slot_witness :
  @ASSERT debug_build = true /\
  worker_id_of worker_thread debug_start = INVALID_WORKER_ID /\
  (exists this st1 st2,
     ShenandoahWorkerSession_ctor worker_thread 2 debug_start = Ok this st1 /\
     worker_id_of worker_thread st1 = 2 /\
     ShenandoahWorkerSession_ctor worker_thread 4 st1 = Fatal "Already set" st1 /\
     ShenandoahWorkerSession_dtor worker_thread this st1 = Ok tt st2 /\
     worker_id_of worker_thread st2 = INVALID_WORKER_ID /\
     ShenandoahWorkerSession_dtor worker_thread this st2 = Fatal "Must be set" st2) /\
  @ASSERT product_build = false /\
  (exists this st1 this' st2,
     ShenandoahWorkerSession_ctor worker_thread 2 product_start = Ok this st1 /\
     worker_id_of worker_thread st1 = 2 /\
     ShenandoahWorkerSession_dtor worker_thread this st1 = Ok tt st1 /\
     ShenandoahWorkerSession_ctor worker_thread 4 st1 = Ok this' st2 /\
     worker_id_of worker_thread st2 = 4).
Proof.
  split; [reflexivity|]. split; [reflexivity|]. split; [|split; [reflexivity|]].
  - destruct (WorkerSession_slot worker_thread 2 debug_start) as (_ & Hdebug & _).
    destruct (Hdebug eq_refl) as (Hopen & _).
    destruct (Hopen eq_refl) as (this & st1 & Hctor & Hin & _).
    assert (Hset : worker_id_of worker_thread st1 <> INVALID_WORKER_ID)
      by (rewrite Hin; discriminate).
    destruct (WorkerSession_slot worker_thread 4 st1) as (_ & Hdebug1 & _).
    destruct (Hdebug1 eq_refl) as (_ & Hagain & Hclose & _).
    destruct (Hclose this Hset) as (st2 & Hdtor & Hout & _).
    destruct (WorkerSession_slot worker_thread 2 st2) as (_ & Hdebug2 & _).
    destruct (Hdebug2 eq_refl) as (_ & _ & _ & Htwice).
    exists this, st1, st2. split; [exact Hctor|]. split; [exact Hin|].
    split; [exact (Hagain Hset)|]. split; [exact Hdtor|]. split; [exact Hout|].
    exact (Htwice this Hout).
  - destruct (WorkerSession_slot worker_thread 2 product_start) as (_ & _ & Hproduct).
    destruct (Hproduct eq_refl) as ((this & st1 & Hctor & Hin & _) & _).
    destruct (WorkerSession_slot worker_thread 4 st1) as (_ & _ & Hproduct1).
    destruct (Hproduct1 eq_refl) as ((this' & st2 & Hctor' & Hin' & _) & Hdtor).
    exists this, st1, this', st2. split; [exact Hctor|]. split; [exact Hin|].
    split; [exact (Hdtor this)|]. split; [exact Hctor'|exact Hin'].
Defined.

Lemma GCPhase_ctor_thread_check_witness :
  @ASSERT debug_build = true /\
  (is_Worker_thread worker_thread = true /\
   ShenandoahGCPhase_ctor worker_thread 1 debug_start
   = Fatal "Must be set by these threads" debug_start) /\
  (is_VM_thread java_thread = false /\ is_ConcurrentGC_thread java_thread = false /\
   ShenandoahGCPhase_ctor java_thread 1 debug_start
   = Fatal "Must be set by these threads" debug_start) /\
  (is_Worker_thread gc_thread = false /\ is_ConcurrentGC_thread gc_thread = true /\
   exists this st', ShenandoahGCPhase_ctor gc_thread 1 debug_start = Ok this st') /\
  @ASSERT product_build = false /\
  (exists this st',
     ShenandoahGCPhase_ctor worker_thread 1 product_start = Ok this st' /\
     _parent_phase this = _current_phase product_start /\
     _current_phase st' = 1).
Proof.
  destruct (GCPhase_ctor_thread_check worker_thread 1 debug_start) as (Hworker & _).
  destruct (GCPhase_ctor_thread_check java_thread 1 debug_start) as (Hjava & _).
  destruct (GCPhase_ctor_thread_check gc_thread 1 debug_start) as (_ & Hgc & _).
  destruct (GCPhase_ctor_thread_check worker_thread 1 product_start)
    as (_ & _ & Hproduct).
  split; [reflexivity|].
  split; [split; [reflexivity|exact (Hworker eq_refl (or_introl eq_refl))]|].
  split; [split; [reflexivity|split; [reflexivity|]]|].
  { exact (Hjava eq_refl (or_intror (conj eq_refl eq_refl))). }
  split; [split; [reflexivity|split; [reflexivity|]]|].
  { exact (Hgc eq_refl (or_intror eq_refl)). }
  split; [reflexivity|]. exact (Hproduct eq_refl).
Defined.

Lemma run_block_without_role_witness :
  @ASSERT debug_build = true /\
  orchestrating worker_thread = false /\
  phases_of phase_free_block = [] /\
  (exists st', run_block worker_thread phase_free_block debug_start = Ok tt st') /\
  phases_of nested_body <> [] /\
  (exists st', run_block worker_thread nested_body debug_start
               = Fatal "Must be set by these threads" st') /\
  @ASSERT product_build = false /\
  (exists st',
     run_block worker_thread nested_body product_start = Ok tt st' /\
     _current_phase st' = _current_phase product_start /\
     clock_reads st' = (clock_reads product_start + clock_reads_of nested_body)%nat).
Proof.
  destruct (run_block_without_role worker_thread phase_free_block debug_start)
    as (Hdebug & _).
  destruct (Hdebug eq_refl eq_refl) as (Hfree & _).
  destruct (run_block_without_role worker_thread nested_body debug_start)
    as (Hdebug' & _).
  destruct (Hdebug' eq_refl eq_refl) as (_ & Hphase & _).
  destruct (run_block_without_role worker_thread nested_body product_start)
    as (_ & Hproduct).
  split; [reflexivity|]. split; [reflexivity|]. split; [reflexivity|].
  split; [exact (Hfree eq_refl)|]. split; [discriminate|].
  split; [apply Hphase; discriminate|]. split; [reflexivity|].
  exact (Hproduct eq_refl).
Defined.

Lemma WorkerSession_second_open_witness :
  worker_id_of worker_thread debug_start = INVALID_WORKER_ID /\
  2 <> INVALID_WORKER_ID /\
  @ASSERT debug_build = true /\
  (exists this st1,
     ShenandoahWorkerSession_ctor worker_thread 2 debug_start = Ok this st1 /\
     ShenandoahWorkerSession_ctor worker_thread 4 st1 = Fatal "Already set" st1 /\
     exists this' st2,
       ShenandoahWorkerSession_ctor gc_thread 4 st1 = Ok this' st2 /\
       worker_id_of worker_thread st2 = 2 /\
       worker_id_of gc_thread st2 = 4) /\
  worker_id_of worker_thread product_start = INVALID_WORKER_ID /\
  @ASSERT product_build = false /\
  (exists this st1 this' st2,
     ShenandoahWorkerSession_ctor worker_thread 2 product_start = Ok this st1 /\
     ShenandoahWorkerSession_ctor worker_thread 4 st1 = Ok this' st2 /\
     worker_id_of worker_thread st2 = 4).
Proof.
  split; [reflexivity|]. split; [discriminate|]. split; [reflexivity|]. split.
  - destruct (WorkerSession_second_open worker_thread gc_thread 2 4 debug_start eq_refl)
      as (this & st1 & Hopen & Hagain & _ & Hother); [discriminate|].
    exists this, st1. split; [exact Hopen|]. split; [exact (Hagain eq_refl)|].
    apply Hother; [discriminate|reflexivity].
  - split; [reflexivity|]. split; [reflexivity|].
    destruct (WorkerSession_second_open worker_thread gc_thread 2 4 product_start eq_refl)
      as (this & st1 & Hopen & _ & Hover & _); [discriminate|].
    destruct (Hover eq_refl) as (this' & st2 & Hopen' & Hin').
    exists this, st1, this', st2. split; [exact Hopen|]. split; [exact Hopen'|exact Hin'].
Defined.

End Both_builds.
